(** * VPort: a TAP <-> UDP bridge towards a learning virtual switch

    Shallow embedding of [vport.c], [tap_utils.c] and [sys_utils.h].

    The C code is a sequence of system calls whose answers come from the
    kernel.  A computation is embedded as a value of [Proc A]: the trace of
    system calls and log lines it performed, and either the value it
    returned or the way the process halted ([exit] or a failed [assert]).
    The kernel's answers are explicit arguments of the embedded functions. *)

From Stdlib Require Import ZArith String.
From stdpp Require Import base tactics option list gmap.

Local Open Scope Z_scope.

(** ** Constants of the system headers *)

Definition ETHER_MAX_LEN : Z := 1518.   (* <net/ethernet.h> *)
Definition IFNAMSIZ : nat := 16.        (* <linux/if.h> *)
Definition AF_INET : Z := 2.
Definition SOCK_DGRAM : Z := 2.
Definition O_RDWR : Z := 2.
Definition IFF_TAP : Z := 2.            (* 0x0002 *)
Definition IFF_NO_PI : Z := 4096.       (* 0x1000 *)

(** ** Data *)

(** [struct sockaddr_in]; [memset] clears the padding, which is not kept. *)
Record sockaddr_in : Type := mk_sockaddr_in {
  sin_family : Z;
  sin_port : Z;
  sin_addr : Z
}.

(** [struct vport_t] *)
Record vport_t : Type := mk_vport {
  tapfd : Z;
  vport_sockfd : Z;
  vswitch_addr : sockaddr_in
}.

(** The two fields of [struct ifreq] that [tap_alloc] touches. *)
Record ifreq : Type := mk_ifreq {
  ifr_name : string;
  ifr_flags : Z
}.

(** Lines printed by [fprintf(stderr, ...)] and [printf], by format string
    and arguments ([strerror(errno)] is left out). *)
Inductive message : Type :=
| MsgFailTapAlloc
| MsgFailSocket
| MsgFailInetPton
| MsgTapDevice (ifname server_ip_str : string) (server_port : Z)
| MsgSendtoMismatch (ether_datasz sendsz : Z)
| MsgWriteMismatch (ether_datasz sendsz : Z)
| MsgSentToVSwitch (dhost shost : list Z) (ether_type : Z) (datasz : Z)
| MsgForwardToTap (dhost shost : list Z) (ether_type : Z) (datasz : Z).

(** What the process does to the outside world, in program order. *)
Inductive event : Type :=
| EvOpen (path : string) (flags : Z)
| EvIoctl (fd : Z) (ifr : ifreq)
| EvClose (fd : Z)
| EvSocket (domain type protocol : Z)
| EvRead (fd : Z) (count : Z)
| EvSendto (fd : Z) (data : list Z) (dest : sockaddr_in)
| EvRecvfrom (fd : Z) (count : Z)
| EvWrite (fd : Z) (data : list Z)
| EvStderr (m : message)
| EvStdout (m : message).

(** ** The process monad *)

Inductive halt : Type :=
| Exited (status : Z)     (* exit(status) *)
| AssertFailed.           (* assert(e) with e false: abort() *)

Inductive result (A : Type) : Type :=
| Done (a : A)
| Halted (h : halt).
Arguments Done {A} a.
Arguments Halted {A} h.

Record Proc (A : Type) : Type := mkProc {
  trace : list event;
  res : result A
}.
Arguments mkProc {A} trace res.
Arguments trace {A} p.
Arguments res {A} p.

Definition proc_bind {A B : Type} (m : Proc A) (f : A → Proc B) : Proc B :=
  match res m with
  | Done a => mkProc (trace m ++ trace (f a)) (res (f a))
  | Halted h => mkProc (trace m) (Halted h)
  end.

#[global] Instance proc_ret : MRet Proc := λ A a, mkProc [] (Done a).
#[global] Instance proc_mbind : MBind Proc := λ A B f m, proc_bind m f.

Definition emit (e : event) : Proc unit := mkProc [e] (Done tt).
Definition emit_ret {A : Type} (e : event) (a : A) : Proc A := mkProc [e] (Done a).
Definition exit {A : Type} (status : Z) : Proc A := mkProc [] (Halted (Exited status)).
Definition when (b : bool) (p : Proc unit) : Proc unit := if b then p else mret tt.

(** [assert(e)]: nothing when the program is compiled with [NDEBUG]. *)
Definition assert (NDEBUG : bool) (e : bool) : Proc unit :=
  if NDEBUG || e then mret tt else mkProc [] (Halted AssertFailed).

Definition fprintf_stderr (m : message) : Proc unit := emit (EvStderr m).
Definition printf (m : message) : Proc unit := emit (EvStdout m).

(** [sys_utils.h]: [fprintf(stderr, msg); exit(1);] *)
Definition ERROR_PRINT_THEN_EXIT {A : Type} (m : message) : Proc A :=
  fprintf_stderr m;; exit 1.

(** [after evs p]: the events [evs] happen, then [p] runs. *)
Definition after {A : Type} (evs : list event) (p : Proc A) : Proc A :=
  mkProc (evs ++ trace p) (res p).

(** Did the computation come back to its caller? *)
Definition returned {A : Type} (p : Proc A) : Prop := ∃ a, res p = Done a.

(** ** Setup: [tap_alloc] and [vport_init] *)

(** The answers of the kernel and of libc during setup. *)
Record setup_env : Type := mk_setup_env {
  (* open(path, flags): a descriptor, or a negative value *)
  env_open : string → Z → Z;
  (* ioctl(fd, TUNSETIFF, &ifr): the return value and [ifr] afterwards *)
  env_tunsetiff : Z → ifreq → Z * ifreq;
  (* socket(domain, type, protocol) *)
  env_socket : Z → Z → Z → Z;
  (* the IPv4 address a dotted string denotes, if it is one *)
  env_parse_ipv4 : string → option Z
}.

Definition sys_open (env : setup_env) (path : string) (flags : Z) : Proc Z :=
  emit_ret (EvOpen path flags) (env_open env path flags).

Definition sys_ioctl_tunsetiff (env : setup_env) (fd : Z) (ifr : ifreq) : Proc (Z * ifreq) :=
  emit_ret (EvIoctl fd ifr) (env_tunsetiff env fd ifr).

Definition sys_close (fd : Z) : Proc unit := emit (EvClose fd).

Definition sys_socket (env : setup_env) (domain type protocol : Z) : Proc Z :=
  emit_ret (EvSocket domain type protocol) (env_socket env domain type protocol).

(** [inet_pton(AF_INET, src, &dst)]: 1 and [dst] written, or 0 and [dst]
    untouched. *)
Definition inet_pton (env : setup_env) (src : string) (dst : Z) : Z * Z :=
  match env_parse_ipv4 env src with
  | Some a => (1, a)
  | None => (0, dst)
  end.

(** [htons] on a little-endian host: the argument is converted to
    [uint16_t] and its two bytes are swapped. *)
Definition htons (hostshort : Z) : Z :=
  let h := hostshort `mod` 65536 in
  Z.lor (Z.shiftl (Z.land h 255) 8) (Z.shiftr h 8).

(** [strncpy(ifr.ifr_name, dev, IFNAMSIZ)] into a cleared field. *)
Definition strncpy (src : string) (n : nat) : string := substring 0 n src.

(** The request [tap_alloc] builds: a cleared [ifr], the TAP flags, and the
    requested name when [*dev] is not the terminator. *)
Definition tap_ifreq (dev : string) : ifreq :=
  let ifr := mk_ifreq "" (Z.lor IFF_TAP IFF_NO_PI) in
  if String.eqb dev "" then ifr
  else mk_ifreq (strncpy dev IFNAMSIZ) (ifr_flags ifr).

(** [tap_utils.c]: returns the function's result and the contents of the
    caller's [dev] buffer afterwards. *)
Definition tap_alloc (env : setup_env) (dev : string) : Proc (Z * string) :=
  fd ← sys_open env "/dev/net/tun" O_RDWR;
  if fd <? 0 then mret (fd, dev)
  else
    '(err, ifr) ← sys_ioctl_tunsetiff env fd (tap_ifreq dev);
    if err <? 0 then
      sys_close fd;;
      mret (err, dev)
    else
      mret (fd, ifr_name ifr).

(** [vport.c] *)
Definition vport_init (env : setup_env) (server_ip_str : string) (server_port : Z)
  : Proc vport_t :=
  '(tapfd, ifname) ← tap_alloc env "tapyuan";
  (if tapfd <? 0 then ERROR_PRINT_THEN_EXIT MsgFailTapAlloc else mret tt);;
  vport_sockfd ← sys_socket env AF_INET SOCK_DGRAM 0;
  (if vport_sockfd <? 0 then ERROR_PRINT_THEN_EXIT MsgFailSocket else mret tt);;
  let vswitch_addr := mk_sockaddr_in AF_INET (htons server_port) 0 in
  let '(r, addr) := inet_pton env server_ip_str (sin_addr vswitch_addr) in
  let vswitch_addr := mk_sockaddr_in (sin_family vswitch_addr) (sin_port vswitch_addr) addr in
  (if negb (r =? 1) then ERROR_PRINT_THEN_EXIT MsgFailInetPton else mret tt);;
  printf (MsgTapDevice ifname server_ip_str server_port);;
  mret (mk_vport tapfd vport_sockfd vswitch_addr).

(** ** The two pumps *)

(** The Ethernet header as [struct ether_header] overlays it on the buffer. *)
Definition ether_dhost (ether_data : list Z) : list Z := take 6 ether_data.
Definition ether_shost (ether_data : list Z) : list Z := take 6 (drop 6 ether_data).
(** [ntohs(hdr->ether_type)] *)
Definition ether_type (ether_data : list Z) : Z :=
  default 0 (ether_data !! 12%nat) * 256 + default 0 (ether_data !! 13%nat).

(** What the TAP device answers to one [read]. *)
Inductive tap_input : Type :=
| ReadFails                           (* -1, buffer untouched *)
| ReadFrame (frame : list Z).         (* the frame queued on the device *)

(** What the socket answers to one [recvfrom]. *)
Inductive sock_input : Type :=
| RecvFails                                        (* -1, nothing written *)
| RecvDatagram (data : list Z) (src : sockaddr_in). (* payload and sender *)

(** The kernel stores at most [count] bytes at the start of [buf] and
    returns how many it stored. *)
Definition store (buf : list Z) (count : Z) (data : list Z) : Z * list Z :=
  let got := take (Z.to_nat count) data in
  (Z.of_nat (length got), got ++ drop (length got) buf).

(** [read(fd, buf, count)]: return value and buffer afterwards. *)
Definition sys_read (fd : Z) (buf : list Z) (count : Z) (i : tap_input) : Proc (Z * list Z) :=
  emit_ret (EvRead fd count)
    match i with
    | ReadFails => (-1, buf)
    | ReadFrame frame => store buf count frame
    end.

(** [recvfrom(fd, buf, count, 0, &addr, &addrlen)] with [addrlen] the size
    of [addr]: return value, buffer and [addr] afterwards. *)
Definition sys_recvfrom (fd : Z) (buf : list Z) (count : Z) (addr : sockaddr_in)
    (i : sock_input) : Proc (Z * list Z * sockaddr_in) :=
  emit_ret (EvRecvfrom fd count)
    match i with
    | RecvFails => (-1, buf, addr)
    | RecvDatagram data src => (store buf count data, src)
    end.

(** [sendto(fd, buf, len, 0, &dest, sizeof dest)]; [ret] is what the kernel
    returns, -1 or at most [len], so the cast [(int)sendsz] in the log line
    keeps it. *)
Definition sys_sendto (fd : Z) (buf : list Z) (len : Z) (dest : sockaddr_in) (ret : Z) : Proc Z :=
  emit_ret (EvSendto fd (take (Z.to_nat len) buf) dest) ret.

(** [write(fd, buf, len)] *)
Definition sys_write (fd : Z) (buf : list Z) (len : Z) (ret : Z) : Proc Z :=
  emit_ret (EvWrite fd (take (Z.to_nat len) buf)) ret.

(** The kernel's answers during one pass of a pump's loop. *)
Record uplink_input : Type := mk_uplink_input {
  up_read : tap_input;
  up_sendto : Z
}.

Record downlink_input : Type := mk_downlink_input {
  down_recvfrom : sock_input;
  down_write : Z
}.

Section Pumps.

(** Whether the program was compiled with [NDEBUG]. *)
Variable NDEBUG : bool.

(** One pass of the [while (true)] body of [forward_ether_data_to_vswitch];
    returns the thread's buffer. *)
Definition uplink_pass (vport : vport_t) (ether_data : list Z) (i : uplink_input)
  : Proc (list Z) :=
  '(ether_datasz, ether_data) ← sys_read (tapfd vport) ether_data ETHER_MAX_LEN (up_read i);
  if 0 <? ether_datasz then
    assert NDEBUG (14 <=? ether_datasz);;
    sendsz ← sys_sendto (vport_sockfd vport) ether_data ether_datasz
               (vswitch_addr vport) (up_sendto i);
    when (negb (sendsz =? ether_datasz))
      (fprintf_stderr (MsgSendtoMismatch ether_datasz sendsz));;
    printf (MsgSentToVSwitch (ether_dhost ether_data) (ether_shost ether_data)
              (ether_type ether_data) ether_datasz);;
    mret ether_data
  else mret ether_data.

(** One pass of the body of [forward_ether_data_to_tap]; [recvfrom] stores
    the sender in [vport->vswitch_addr], so the pass returns the shared
    structure together with the thread's buffer. *)
Definition downlink_pass (vport : vport_t) (ether_data : list Z) (i : downlink_input)
  : Proc (vport_t * list Z) :=
  '(ether_datasz, ether_data, addr) ←
    sys_recvfrom (vport_sockfd vport) ether_data ETHER_MAX_LEN (vswitch_addr vport)
      (down_recvfrom i);
  let vport := mk_vport (tapfd vport) (vport_sockfd vport) addr in
  if 0 <? ether_datasz then
    assert NDEBUG (14 <=? ether_datasz);;
    sendsz ← sys_write (tapfd vport) ether_data ether_datasz (down_write i);
    when (negb (sendsz =? ether_datasz))
      (fprintf_stderr (MsgWriteMismatch ether_datasz sendsz));;
    printf (MsgForwardToTap (ether_dhost ether_data) (ether_shost ether_data)
              (ether_type ether_data) ether_datasz);;
    mret (vport, ether_data)
  else mret (vport, ether_data).

(** [forward_ether_data_to_vswitch] run alone against the answers [ins]:
    the loop only stops by halting the process, so [Done] means that the
    thread is back in [read], waiting. *)
Fixpoint forward_ether_data_to_vswitch (vport : vport_t) (ether_data : list Z)
    (ins : list uplink_input) : Proc (list Z) :=
  match ins with
  | [] => mret ether_data
  | i :: ins =>
      ether_data ← uplink_pass vport ether_data i;
      forward_ether_data_to_vswitch vport ether_data ins
  end.

(** [forward_ether_data_to_tap] run alone. *)
Fixpoint forward_ether_data_to_tap (vport : vport_t) (ether_data : list Z)
    (ins : list downlink_input) : Proc (vport_t * list Z) :=
  match ins with
  | [] => mret (vport, ether_data)
  | i :: ins =>
      '(vport, ether_data) ← downlink_pass vport ether_data i;
      forward_ether_data_to_tap vport ether_data ins
  end.

(** The two threads [main] creates work on the same [struct vport_t]; each
    has its own stack buffer.  A schedule says whose pass runs next and
    what the kernel answers. *)
Inductive turn : Type :=
| Up (i : uplink_input)
| Down (i : downlink_input).

Record bridge : Type := mk_bridge {
  shared : vport_t;
  up_buf : list Z;
  down_buf : list Z
}.

Definition bridge_turn (b : bridge) (t : turn) : Proc bridge :=
  match t with
  | Up i =>
      buf ← uplink_pass (shared b) (up_buf b) i;
      mret (mk_bridge (shared b) buf (down_buf b))
  | Down i =>
      '(vport, buf) ← downlink_pass (shared b) (down_buf b) i;
      mret (mk_bridge vport (up_buf b) buf)
  end.

Fixpoint run_bridge (b : bridge) (sched : list turn) : Proc bridge :=
  match sched with
  | [] => mret b
  | t :: sched => b ← bridge_turn b t; run_bridge b sched
  end.

End Pumps.

(** Projections of a trace. *)
Definition sent_datagrams (tr : list event) : list (list Z * sockaddr_in) :=
  omap (λ e, match e with EvSendto _ data dest => Some (data, dest) | _ => None end) tr.

Definition tap_writes (tr : list event) : list (list Z) :=
  omap (λ e, match e with EvWrite _ data => Some data | _ => None end) tr.

(** The data transfers of a trace, each with its descriptor: what was asked
    of [read] and [recvfrom], what was given to [sendto] and [write]. *)
Definition io_calls (tr : list event) : list event :=
  omap (λ e, match e with
             | EvRead _ _ | EvRecvfrom _ _ | EvSendto _ _ _ | EvWrite _ _ => Some e
             | _ => None
             end) tr.

(** A forwarded frame fits the Ethernet maximum. *)
Definition within_max_frame (e : event) : Prop :=
  match e with
  | EvSendto _ data _ | EvWrite _ data => (length data ≤ 1518)%nat
  | _ => True
  end.

(** ** The switch

    The switch process ([vswitch.py] in the README) is not among the C
    sources.  Its forwarding engine is written down here from the design
    document, sections 3 and 4.1 to 4.3. *)

Module VSwitch.

(** Modelled from the spec: a MAC address is a 6-byte value; the learning
    table of the missing [vswitch.py] is keyed by it. *)
Definition mac_address : Type := list Z.

(** Modelled from the spec: a port of the missing switch is the transport
    address (IP, UDP port) frames arrive from. *)
Definition port_identity : Type := (Z * Z)%type.

(** Modelled from the spec: a MAC table entry of the missing switch,
    [{mac, port, last_seen}], the MAC being the key. *)
Record mac_entry : Type := mk_mac_entry {
  entry_port : port_identity;
  last_seen : Z
}.

(** Modelled from the spec: the state the missing switch owns, the MAC
    learning table and the port registry. *)
Record switch : Type := mk_switch {
  mac_table : gmap (list Z) mac_entry;
  port_set : gset (Z * Z)
}.

(** Modelled from the spec: the broadcast address [ff:ff:ff:ff:ff:ff]. *)
Definition broadcast : mac_address := [255; 255; 255; 255; 255; 255].

(** Modelled from the spec: multicast is "low bit of first octet set". *)
Definition is_multicast (m : mac_address) : bool :=
  match m with
  | b :: _ => Z.testbit b 0
  | [] => false
  end.

(** Modelled from the spec: [learn(mac, port)] of the missing MAC learning
    table, an upsert that overwrites the port and refreshes the time. *)
Definition learn (now : Z) (m : mac_address) (p : port_identity)
    (t : gmap (list Z) mac_entry) : gmap (list Z) mac_entry :=
  <[m := mk_mac_entry p now]> t.

(** Modelled from the spec: [lookup(mac)] of the missing MAC learning
    table; unknown if never learned or idle for longer than the timeout
    (stale entries are reclaimed lazily on lookup). *)
Definition lookup (idle_timeout now : Z) (m : mac_address)
    (t : gmap (list Z) mac_entry) : option port_identity :=
  match t !! m with
  | Some e => if now - last_seen e <=? idle_timeout then Some (entry_port e) else None
  | None => None
  end.

(** Modelled from the spec: [register(address)] of the missing port
    registry. *)
Definition register (a : port_identity) (ps : gset (Z * Z)) : gset (Z * Z) :=
  {[a]} ∪ ps.

(** Modelled from the spec: flooding in the missing forwarding engine goes
    to every port in the registry except the source address. *)
Definition flood (ps : gset (Z * Z)) (source_address : port_identity) : list port_identity :=
  elements (ps ∖ {[source_address]}).

(** Modelled from the spec: step 4 of the missing forwarding engine, the
    ports a frame with destination [dst] is transmitted to. *)
Definition decide_ports (idle_timeout now : Z) (sw : switch) (dst : mac_address)
    (source_address : port_identity) : list port_identity :=
  if bool_decide (dst = broadcast) || is_multicast dst then
    flood (port_set sw) source_address
  else
    match lookup idle_timeout now dst (mac_table sw) with
    | None => flood (port_set sw) source_address
    | Some p => if bool_decide (p = source_address) then [] else [p]
    end.

(** Modelled from the spec: the core algorithm of the missing forwarding
    engine (section 4.3, steps 1 to 4), invoked once per received frame;
    returns the new state and the transmissions (port, frame). *)
Definition process_frame (idle_timeout now : Z) (sw : switch) (frame : list Z)
    (source_address : port_identity) : switch * list (port_identity * list Z) :=
  if (length frame <? 14)%nat then (sw, [])
  else
    let dst := take 6 frame in
    let src := take 6 (drop 6 frame) in
    let sw := mk_switch (learn now src source_address (mac_table sw))
                        (register source_address (port_set sw)) in
    (sw, (λ p, (p, frame)) <$> decide_ports idle_timeout now sw dst source_address).

End VSwitch.

(** ** Concrete environments used to exercise the statements *)

Definition loopback : Z := 2130706433.      (* 127.0.0.1 *)

Definition good_env : setup_env :=
  mk_setup_env (λ _ _, 3)
               (λ _ ifr, (0, mk_ifreq "tapyuan" (ifr_flags ifr)))
               (λ _ _ _, 4)
               (λ s, if String.eqb s "127.0.0.1" then Some loopback else None).

Definition no_tun_env : setup_env :=
  mk_setup_env (λ _ _, -1) (env_tunsetiff good_env) (env_socket good_env)
               (env_parse_ipv4 good_env).

Definition no_socket_env : setup_env :=
  mk_setup_env (env_open good_env) (env_tunsetiff good_env) (λ _ _ _, -1)
               (env_parse_ipv4 good_env).

Definition busy_tap_env : setup_env :=
  mk_setup_env (env_open good_env) (λ _ ifr, (-1, ifr)) (env_socket good_env)
               (env_parse_ipv4 good_env).

Definition vport0 : vport_t :=
  mk_vport 3 4 (mk_sockaddr_in AF_INET (htons 8080) loopback).

Definition stranger : sockaddr_in := mk_sockaddr_in AF_INET (htons 9999) 167772169.

(** A 14-byte frame: broadcast destination, source 02:00:00:00:00:01, ARP. *)
Definition arp_header : list Z :=
  [255; 255; 255; 255; 255; 255; 2; 0; 0; 0; 0; 1; 8; 6].

Definition runt : list Z := [1; 2; 3; 4; 5].

Definition stack_garbage : list Z := replicate 1518 0.

(** Two ports of a switch, and a frame whose destination is its own source
    02:00:00:00:00:01. *)
Definition port_a : VSwitch.port_identity := (loopback, 40001).
Definition port_b : VSwitch.port_identity := (loopback, 40002).

Definition switch0 : VSwitch.switch :=
  VSwitch.mk_switch ∅ {[port_a; port_b]}.

Definition self_frame : list Z :=
  [2; 0; 0; 0; 0; 1; 2; 0; 0; 0; 0; 1; 8; 0].

(** ** [main]

    [main] checks [argc], initialises the structure and creates the two
    threads.  Neither thread function returns, so the [pthread_join] that
    follows blocks until the process halts; [return 0] is never reached.
    The uplink thread exists before the downlink thread is created: [early]
    are the passes it makes in between, [sched] is the schedule of both
    threads afterwards. *)

Inductive main_event : Type :=
| MainUsage                       (* "Usage: vport {server_ip} {server_port}\n" on stderr *)
| MainSys (e : event)             (* an event of [vport_init] or of a pump *)
| MainPthreadCreate (down : bool) (* pthread_create of the uplink / downlink thread *)
| MainFailPthreadCreate.          (* "fail to pthread_create: %s\n" on stderr *)

Record main_env : Type := mk_main_env {
  menv_setup : setup_env;
  (* atoi(argv[2]) *)
  menv_atoi : string → Z;
  (* what the two pthread_create calls return *)
  menv_create_up : Z;
  menv_create_down : Z;
  (* the contents of each thread's [char ether_data[ETHER_MAX_LEN]] on entry *)
  menv_up_stack : list Z;
  menv_down_stack : list Z
}.

Definition main (env : main_env) (NDEBUG : bool) (argv : list string)
    (early : list uplink_input) (sched : list turn) : list main_event * result bridge :=
  if negb (length argv =? 3)%nat then ([MainUsage], Halted (Exited 1))
  else
    let server_ip_str := default EmptyString (argv !! 1%nat) in
    let server_port := menv_atoi env (default EmptyString (argv !! 2%nat)) in
    let init := vport_init (menv_setup env) server_ip_str server_port in
    match res init with
    | Halted h => (MainSys <$> trace init, Halted h)
    | Done vport =>
        let tr := (MainSys <$> trace init) ++ [MainPthreadCreate false] in
        if negb (menv_create_up env =? 0) then
          (tr ++ [MainFailPthreadCreate], Halted (Exited 1))
        else
          let up := forward_ether_data_to_vswitch NDEBUG vport (menv_up_stack env) early in
          match res up with
          | Halted h => (tr ++ (MainSys <$> trace up), Halted h)
          | Done up_data =>
              let tr := tr ++ (MainSys <$> trace up) ++ [MainPthreadCreate true] in
              if negb (menv_create_down env =? 0) then
                (tr ++ [MainFailPthreadCreate], Halted (Exited 1))
              else
                let run := run_bridge NDEBUG
                             (mk_bridge vport up_data (menv_down_stack env)) sched in
                (tr ++ (MainSys <$> trace run), res run)
          end
    end.

(** The system calls and log lines among the events of [main]. *)
Definition main_sys_events (tr : list main_event) : list event :=
  omap (λ e, match e with MainSys e => Some e | _ => None end) tr.

(** ** Predicates on events and schedules *)

(** The pump's I/O goes through the two descriptors given. *)
Definition uses_descriptors (tap sock : Z) (e : event) : Prop :=
  match e with
  | EvRead fd _ | EvWrite fd _ => fd = tap
  | EvSendto fd _ _ | EvRecvfrom fd _ => fd = sock
  | _ => True
  end.

(** Every datagram the socket delivers in this turn comes from [addr]. *)
Definition sender_is (addr : sockaddr_in) (t : turn) : Prop :=
  match t with
  | Up _ => True
  | Down i =>
      match down_recvfrom i with
      | RecvDatagram _ src => src = addr
      | RecvFails => True
      end
  end.

(** The frame or datagram of this turn is empty or has a whole header. *)
Definition turn_well_sized (t : turn) : Prop :=
  match t with
  | Up i =>
      match up_read i with
      | ReadFrame frame => frame = [] ∨ (14 ≤ length frame)%nat
      | ReadFails => True
      end
  | Down i =>
      match down_recvfrom i with
      | RecvDatagram data _ => data = [] ∨ (14 ≤ length data)%nat
      | RecvFails => True
      end
  end.

(** A datagram, if the event sends one, goes to [addr]. *)
Definition sends_only_to (addr : sockaddr_in) (e : event) : Prop :=
  match e with
  | EvSendto _ _ dest => dest = addr
  | _ => True
  end.

(** The event is none of the four data transfers of the pumps. *)
Definition is_setup_event (e : event) : Prop :=
  match e with
  | EvRead _ _ | EvWrite _ _ | EvSendto _ _ _ | EvRecvfrom _ _ => False
  | _ => True
  end.

Definition is_stderr (e : event) : Prop :=
  match e with EvStderr _ => True | _ => False end.

Definition main_env0 : main_env :=
  mk_main_env good_env (λ _, 8080) 0 0 stack_garbage stack_garbage.

Definition jumbo : list Z := replicate 1600 7.

(** Case analysis on the integer tests the C code branches on. *)
Ltac branch_on c :=
  let H := fresh "Hc" in
  destruct c eqn:H;
  [ first [ apply Z.ltb_lt in H | apply Z.leb_le in H | apply Z.eqb_eq in H | idtac ]
  | first [ apply Z.ltb_ge in H | apply Z.leb_gt in H | apply Z.eqb_neq in H | idtac ] ].

(** Finishing tactic for the cases of one turn. *)
Ltac turn_cases :=
  repeat case_match; simpl; intros; simplify_eq/=;
  repeat first [apply Forall_nil_2 | apply Forall_cons_2]; simpl; try done.

(** * Properties *)

(** ** The process monad *)

Lemma bind_done {A B : Type} (m : Proc A) (f : A → Proc B) (a : A) :
  res m = Done a →
  m ≫= f = mkProc (trace m ++ trace (f a)) (res (f a)).
Proof. intros H. unfold mbind, proc_mbind, proc_bind. by rewrite H. Qed.

(** ** Setup *)

Section Setup.

Variable env : setup_env.

(** [tap_alloc] has no [exit] and no [assert]: it always comes back. *)
Lemma tap_alloc_returns (dev : string) : returned (tap_alloc env dev).
Proof.
  unfold returned, tap_alloc, sys_open, sys_ioctl_tunsetiff.
  cbn. destruct (env_open env _ _ <? 0); cbn; [eauto |].
  destruct (env_tunsetiff env _ _) as [err ifr]; cbn.
  destruct (err <? 0); cbn; eauto.
Qed.

Lemma tap_alloc_open_fails (dev : string) :
  env_open env "/dev/net/tun" O_RDWR < 0 →
  tap_alloc env dev =
    mkProc [EvOpen "/dev/net/tun" O_RDWR]
           (Done (env_open env "/dev/net/tun" O_RDWR, dev)).
Proof.
  intros Hfd. unfold tap_alloc, sys_open. cbn.
  by rewrite (proj2 (Z.ltb_lt _ _) Hfd).
Qed.

End Setup.

(** C9.  Once [open] has given [tap_alloc] a descriptor [fd]: if the
    TUNSETIFF ioctl returns a negative [err], [tap_alloc] closes [fd] and
    returns [err], and the caller's buffer still holds [dev]; if the ioctl
    succeeds, the caller's buffer holds the name the kernel left in
    [ifr.ifr_name], the result is [fd], which is not negative, and [fd] is
    not closed. *)
Theorem tap_alloc_after_ioctl (env : setup_env) (dev : string) (fd err : Z) (ifr : ifreq) :
  env_open env "/dev/net/tun" O_RDWR = fd →
  0 ≤ fd →
  env_tunsetiff env fd (tap_ifreq dev) = (err, ifr) →
  (err < 0 →
     tap_alloc env dev =
       mkProc [EvOpen "/dev/net/tun" O_RDWR; EvIoctl fd (tap_ifreq dev); EvClose fd]
              (Done (err, dev)))
  ∧ (0 ≤ err →
     tap_alloc env dev =
       mkProc [EvOpen "/dev/net/tun" O_RDWR; EvIoctl fd (tap_ifreq dev)]
              (Done (fd, ifr_name ifr))).
Proof.
  intros Hopen Hfd Hioctl.
  unfold tap_alloc, sys_open, sys_ioctl_tunsetiff. cbn.
  rewrite Hopen, (proj2 (Z.ltb_ge _ _) Hfd). cbn.
  rewrite Hioctl. cbn.
  split; intros Herr.
  - by rewrite (proj2 (Z.ltb_lt _ _) Herr).
  - by rewrite (proj2 (Z.ltb_ge _ _) Herr).
Qed.

Lemma tap_alloc_after_ioctl_witness :
  tap_alloc busy_tap_env "tapyuan" =
    mkProc [EvOpen "/dev/net/tun" O_RDWR; EvIoctl 3 (tap_ifreq "tapyuan"); EvClose 3]
           (Done (-1, "tapyuan"%string))
  ∧ tap_alloc good_env "" =
    mkProc [EvOpen "/dev/net/tun" O_RDWR; EvIoctl 3 (tap_ifreq "")]
           (Done (3, "tapyuan"%string)).
Proof.
  split.
  - apply (tap_alloc_after_ioctl busy_tap_env "tapyuan" 3 (-1) (tap_ifreq "tapyuan"));
      [reflexivity | lia | reflexivity | lia].
  - apply (tap_alloc_after_ioctl good_env "" 3 0 (mk_ifreq "tapyuan" 4098));
      [reflexivity | lia | reflexivity | lia].
Defined.

(** C7.  Whatever fails first during [vport_init] (a negative result of
    [tap_alloc], a negative result of [socket], or an address string that
    [inet_pton] does not accept), the next thing the process does is to
    print the diagnostic of that failure on stderr, and then it exits with
    status 1: no [vport_t] is handed to the caller. *)
Theorem vport_init_setup_failure_exits (env : setup_env) (server_ip_str : string)
    (server_port tapfd : Z) (ifname : string) :
  res (tap_alloc env "tapyuan") = Done (tapfd, ifname) →
  let tap := trace (tap_alloc env "tapyuan") in
  let sockfd := env_socket env AF_INET SOCK_DGRAM 0 in
  (tapfd < 0 →
     vport_init env server_ip_str server_port =
       mkProc (tap ++ [EvStderr MsgFailTapAlloc]) (Halted (Exited 1)))
  ∧ (0 ≤ tapfd → sockfd < 0 →
     vport_init env server_ip_str server_port =
       mkProc (tap ++ [EvSocket AF_INET SOCK_DGRAM 0; EvStderr MsgFailSocket])
              (Halted (Exited 1)))
  ∧ (0 ≤ tapfd → 0 ≤ sockfd → env_parse_ipv4 env server_ip_str = None →
     vport_init env server_ip_str server_port =
       mkProc (tap ++ [EvSocket AF_INET SOCK_DGRAM 0; EvStderr MsgFailInetPton])
              (Halted (Exited 1))).
Proof.
  intros Htap tap sockfd. subst tap sockfd.
  unfold vport_init. rewrite (bind_done _ _ _ Htap). cbn.
  split; [| split].
  - intros Hneg. by rewrite (proj2 (Z.ltb_lt _ _) Hneg).
  - intros Hfd Hsock. rewrite (proj2 (Z.ltb_ge _ _) Hfd). cbn.
    by rewrite (proj2 (Z.ltb_lt _ _) Hsock).
  - intros Hfd Hsock Hparse. rewrite (proj2 (Z.ltb_ge _ _) Hfd). cbn.
    rewrite (proj2 (Z.ltb_ge _ _) Hsock). cbn.
    unfold inet_pton. by rewrite Hparse.
Qed.

Lemma vport_init_setup_failure_exits_witness :
  vport_init no_tun_env "127.0.0.1" 8080 =
    mkProc (trace (tap_alloc no_tun_env "tapyuan") ++ [EvStderr MsgFailTapAlloc])
           (Halted (Exited 1))
  ∧ vport_init no_socket_env "127.0.0.1" 8080 =
    mkProc (trace (tap_alloc no_socket_env "tapyuan")
              ++ [EvSocket AF_INET SOCK_DGRAM 0; EvStderr MsgFailSocket])
           (Halted (Exited 1))
  ∧ vport_init good_env "localhost" 8080 =
    mkProc (trace (tap_alloc good_env "tapyuan")
              ++ [EvSocket AF_INET SOCK_DGRAM 0; EvStderr MsgFailInetPton])
           (Halted (Exited 1)).
Proof.
  split; [| split].
  - apply (vport_init_setup_failure_exits no_tun_env "127.0.0.1" 8080 (-1) "tapyuan");
      [reflexivity | lia].
  - apply (vport_init_setup_failure_exits no_socket_env "127.0.0.1" 8080 3 "tapyuan");
      [reflexivity | lia | simpl; lia].
  - apply (vport_init_setup_failure_exits good_env "localhost" 8080 3 "tapyuan");
      [reflexivity | lia | simpl; lia | reflexivity].
Defined.

(** C10.  When [vport_init] comes back to its caller, the structure it
    filled has the family [AF_INET], the port [htons(server_port)], the
    address that [inet_pton] produced for [server_ip_str], the descriptor
    that [tap_alloc] returned, and the descriptor that [socket] returned;
    neither descriptor is negative. *)
Theorem vport_init_populates (env : setup_env) (server_ip_str : string)
    (server_port : Z) (vport : vport_t) :
  res (vport_init env server_ip_str server_port) = Done vport →
  sin_family (vswitch_addr vport) = AF_INET
  ∧ sin_port (vswitch_addr vport) = htons server_port
  ∧ inet_pton env server_ip_str 0 = (1, sin_addr (vswitch_addr vport))
  ∧ (∃ ifname, res (tap_alloc env "tapyuan") = Done (tapfd vport, ifname))
  ∧ 0 ≤ tapfd vport
  ∧ vport_sockfd vport = env_socket env AF_INET SOCK_DGRAM 0
  ∧ 0 ≤ vport_sockfd vport.
Proof.
  destruct (tap_alloc_returns env "tapyuan") as [[fd ifname] Htap].
  unfold vport_init. rewrite (bind_done _ _ _ Htap). cbn.
  branch_on (fd <? 0); cbn; [discriminate |].
  branch_on (env_socket env AF_INET SOCK_DGRAM 0 <? 0); cbn; [discriminate |].
  unfold inet_pton.
  destruct (env_parse_ipv4 env server_ip_str) as [a |]; cbn; [| discriminate].
  intros [= <-]. cbn. eauto 10.
Qed.

Lemma vport_init_populates_witness :
  sin_family (vswitch_addr vport0) = AF_INET
  ∧ sin_port (vswitch_addr vport0) = htons 8080
  ∧ inet_pton good_env "127.0.0.1" 0 = (1, sin_addr (vswitch_addr vport0))
  ∧ (∃ ifname, res (tap_alloc good_env "tapyuan") = Done (tapfd vport0, ifname))
  ∧ 0 ≤ tapfd vport0
  ∧ vport_sockfd vport0 = env_socket good_env AF_INET SOCK_DGRAM 0
  ∧ 0 ≤ vport_sockfd vport0.
Proof.
  apply (vport_init_populates good_env "127.0.0.1" 8080 vport0).
  reflexivity.
Defined.

(** ** The pumps *)

Lemma bind_after {A B : Type} (evs : list event) (a : A) (f : A → Proc B) :
  mkProc evs (Done a) ≫= f = after evs (f a).
Proof. reflexivity. Qed.

(** [store] keeps the size of a buffer of [count] bytes. *)
Lemma store_length (buf : list Z) (count : Z) (data : list Z) :
  length buf = Z.to_nat count →
  length (store buf count data).2 = length buf.
Proof.
  intros Hbuf. unfold store. cbn.
  rewrite length_app, length_drop, length_take. lia.
Qed.

Section PumpFacts.

Variable NDEBUG : bool.
Variable vport : vport_t.
Variable ether_data : list Z.

Lemma uplink_pass_read_fails (ret : Z) :
  uplink_pass NDEBUG vport ether_data (mk_uplink_input ReadFails ret)
  = mkProc [EvRead (tapfd vport) ETHER_MAX_LEN] (Done ether_data).
Proof. reflexivity. Qed.

(** What one pass of the uplink does with a frame queued on the device. *)
Lemma uplink_pass_frame (frame : list Z) (ret : Z) :
  let got := take (Z.to_nat ETHER_MAX_LEN) frame in
  let n := Z.of_nat (length got) in
  let buf := got ++ drop (length got) ether_data in
  uplink_pass NDEBUG vport ether_data (mk_uplink_input (ReadFrame frame) ret)
  = if 0 <? n then
      if NDEBUG || (14 <=? n) then
        mkProc ([EvRead (tapfd vport) ETHER_MAX_LEN;
                 EvSendto (vport_sockfd vport) got (vswitch_addr vport)]
                ++ (if ret =? n then [] else [EvStderr (MsgSendtoMismatch n ret)])
                ++ [EvStdout (MsgSentToVSwitch (ether_dhost buf) (ether_shost buf)
                                (ether_type buf) n)])
               (Done buf)
      else mkProc [EvRead (tapfd vport) ETHER_MAX_LEN] (Halted AssertFailed)
    else mkProc [EvRead (tapfd vport) ETHER_MAX_LEN] (Done buf).
Proof.
  intros got n buf.
  unfold uplink_pass, sys_read, emit_ret, up_read, up_sendto. rewrite bind_after.
  unfold store. fold got. fold n. fold buf.
  destruct (0 <? n); [| reflexivity].
  unfold assert. destruct (NDEBUG || (14 <=? n)); [| reflexivity].
  unfold sys_sendto, n. rewrite Nat2Z.id. fold n.
  replace (take (length got) buf) with got by (symmetry; apply take_app_length).
  clearbody buf n got. cbn. destruct (ret =? n); reflexivity.
Qed.

Lemma downlink_pass_recv_fails (ret : Z) :
  downlink_pass NDEBUG vport ether_data (mk_downlink_input RecvFails ret)
  = mkProc [EvRecvfrom (vport_sockfd vport) ETHER_MAX_LEN]
           (Done (mk_vport (tapfd vport) (vport_sockfd vport) (vswitch_addr vport),
                  ether_data)).
Proof. reflexivity. Qed.

(** What one pass of the downlink does with a datagram from [src]. *)
Lemma downlink_pass_datagram (data : list Z) (src : sockaddr_in) (ret : Z) :
  let got := take (Z.to_nat ETHER_MAX_LEN) data in
  let n := Z.of_nat (length got) in
  let buf := got ++ drop (length got) ether_data in
  let vport' := mk_vport (tapfd vport) (vport_sockfd vport) src in
  downlink_pass NDEBUG vport ether_data (mk_downlink_input (RecvDatagram data src) ret)
  = if 0 <? n then
      if NDEBUG || (14 <=? n) then
        mkProc ([EvRecvfrom (vport_sockfd vport) ETHER_MAX_LEN;
                 EvWrite (tapfd vport) got]
                ++ (if ret =? n then [] else [EvStderr (MsgWriteMismatch n ret)])
                ++ [EvStdout (MsgForwardToTap (ether_dhost buf) (ether_shost buf)
                                (ether_type buf) n)])
               (Done (vport', buf))
      else mkProc [EvRecvfrom (vport_sockfd vport) ETHER_MAX_LEN] (Halted AssertFailed)
    else mkProc [EvRecvfrom (vport_sockfd vport) ETHER_MAX_LEN] (Done (vport', buf)).
Proof.
  intros got n buf vport'.
  unfold downlink_pass, sys_recvfrom, emit_ret, down_recvfrom, down_write. rewrite bind_after.
  unfold store. fold got. fold n. fold buf. cbn [tapfd]. fold vport'.
  destruct (0 <? n); [| reflexivity].
  unfold assert. destruct (NDEBUG || (14 <=? n)); [| reflexivity].
  unfold sys_write, n. rewrite Nat2Z.id. fold n.
  replace (take (length got) buf) with got by (symmetry; apply take_app_length).
  clearbody buf n got. cbn. destruct (ret =? n); reflexivity.
Qed.

End PumpFacts.

(** C3.  A frame of 14 to 1518 bytes that the uplink reads from the TAP
    descriptor is given to [sendto] on the socket descriptor whole and
    unchanged, in exactly one datagram, addressed to [vport->vswitch_addr];
    a datagram of 14 to 1518 bytes that the downlink receives on the socket
    descriptor is given to [write] on the TAP descriptor whole and
    unchanged, in exactly one call.  Each pass makes these two calls and no
    other transfer, prints its log lines, and the loop goes on. *)
Theorem pumps_forward_frame_unmodified (NDEBUG : bool) (vport : vport_t)
    (ether_data frame : list Z) (ret : Z) (src : sockaddr_in)
    (ups : list uplink_input) (downs : list downlink_input) :
  (14 ≤ length frame ≤ 1518)%nat →
  let n := Z.of_nat (length frame) in
  let buf := frame ++ drop (length frame) ether_data in
  io_calls
    (trace (uplink_pass NDEBUG vport ether_data (mk_uplink_input (ReadFrame frame) ret)))
  = [EvRead (tapfd vport) ETHER_MAX_LEN;
     EvSendto (vport_sockfd vport) frame (vswitch_addr vport)]
  ∧ io_calls
      (trace (downlink_pass NDEBUG vport ether_data
                (mk_downlink_input (RecvDatagram frame src) ret)))
    = [EvRecvfrom (vport_sockfd vport) ETHER_MAX_LEN;
       EvWrite (tapfd vport) frame]
  ∧ forward_ether_data_to_vswitch NDEBUG vport ether_data
      (mk_uplink_input (ReadFrame frame) ret :: ups)
    = after ([EvRead (tapfd vport) ETHER_MAX_LEN;
              EvSendto (vport_sockfd vport) frame (vswitch_addr vport)]
             ++ (if ret =? n then [] else [EvStderr (MsgSendtoMismatch n ret)])
             ++ [EvStdout (MsgSentToVSwitch (ether_dhost buf) (ether_shost buf)
                             (ether_type buf) n)])
            (forward_ether_data_to_vswitch NDEBUG vport buf ups)
  ∧ forward_ether_data_to_tap NDEBUG vport ether_data
      (mk_downlink_input (RecvDatagram frame src) ret :: downs)
    = after ([EvRecvfrom (vport_sockfd vport) ETHER_MAX_LEN;
              EvWrite (tapfd vport) frame]
             ++ (if ret =? n then [] else [EvStderr (MsgWriteMismatch n ret)])
             ++ [EvStdout (MsgForwardToTap (ether_dhost buf) (ether_shost buf)
                             (ether_type buf) n)])
            (forward_ether_data_to_tap NDEBUG
               (mk_vport (tapfd vport) (vport_sockfd vport) src) buf downs).
Proof.
  intros [Hmin Hmax] n buf.
  cbn [forward_ether_data_to_vswitch forward_ether_data_to_tap].
  rewrite uplink_pass_frame, downlink_pass_datagram. cbv zeta.
  rewrite take_ge by (unfold ETHER_MAX_LEN; lia).
  fold n. fold buf.
  rewrite (proj2 (Z.ltb_lt 0 n)) by lia.
  rewrite (proj2 (Z.leb_le 14 n)) by lia.
  rewrite orb_true_r.
  repeat apply conj; try reflexivity; destruct (ret =? n); reflexivity.
Qed.

Lemma pumps_forward_frame_unmodified_witness :
  io_calls
    (trace (uplink_pass false vport0 stack_garbage (mk_uplink_input (ReadFrame arp_header) 14)))
  = [EvRead 3 ETHER_MAX_LEN; EvSendto 4 arp_header (vswitch_addr vport0)]
  ∧ io_calls
      (trace (downlink_pass false vport0 stack_garbage
                (mk_downlink_input (RecvDatagram arp_header stranger) 14)))
    = [EvRecvfrom 4 ETHER_MAX_LEN; EvWrite 3 arp_header].
Proof.
  split;
    apply (pumps_forward_frame_unmodified false vport0 stack_garbage arp_header 14 stranger
             [] []);
    simpl; lia.
Defined.

(** Every event of a bound computation is an event of one of its parts. *)
Lemma trace_bind_Forall {A B : Type} (P : event → Prop) (m : Proc A) (f : A → Proc B) :
  Forall P (trace m) →
  (∀ a, res m = Done a → Forall P (trace (f a))) →
  Forall P (trace (m ≫= f)).
Proof.
  intros Hm Hf. unfold mbind, proc_mbind, proc_bind.
  destruct (res m) as [a | h] eqn:Hres; simpl; [| done].
  apply Forall_app. split; [done | by apply Hf].
Qed.

Lemma take_max_length (data : list Z) :
  (length (take (Z.to_nat ETHER_MAX_LEN) data) ≤ 1518)%nat.
Proof. rewrite length_take. unfold ETHER_MAX_LEN. lia. Qed.

Lemma uplink_pass_bounded (NDEBUG : bool) (vport : vport_t) (buf : list Z) (i : uplink_input) :
  Forall within_max_frame (trace (uplink_pass NDEBUG vport buf i)).
Proof.
  destruct i as [[| frame] ret].
  - rewrite uplink_pass_read_fails. repeat constructor.
  - rewrite uplink_pass_frame. cbv zeta.
    pose proof (take_max_length frame) as Hlen.
    repeat case_match; simpl;
      repeat first [apply Forall_nil_2 | apply Forall_cons_2]; simpl; done.
Qed.

Lemma downlink_pass_bounded (NDEBUG : bool) (vport : vport_t) (buf : list Z)
    (i : downlink_input) :
  Forall within_max_frame (trace (downlink_pass NDEBUG vport buf i)).
Proof.
  destruct i as [[| data src] ret].
  - rewrite downlink_pass_recv_fails. repeat constructor.
  - rewrite downlink_pass_datagram. cbv zeta.
    pose proof (take_max_length data) as Hlen.
    repeat case_match; simpl;
      repeat first [apply Forall_nil_2 | apply Forall_cons_2]; simpl; done.
Qed.

(** C8.  In every run of the two pumps, under every schedule and whatever
    the kernel answers, each datagram given to [sendto] and each frame given
    to [write] is at most 1518 bytes long. *)
Theorem forwarded_frames_within_maximum (NDEBUG : bool) (b : bridge) (sched : list turn) :
  Forall within_max_frame (trace (run_bridge NDEBUG b sched)).
Proof.
  revert b. induction sched as [| t sched IH]; intros b; simpl.
  - constructor.
  - apply trace_bind_Forall; [| intros b' _; apply IH].
    destruct t as [i | i]; simpl.
    + apply trace_bind_Forall; [apply uplink_pass_bounded | intros; constructor].
    + apply trace_bind_Forall; [apply downlink_pass_bounded |].
      intros [vport' buf'] _. constructor.
Qed.

(** C6.  When the uplink has issued a [sendto] for the [n] bytes it read and
    the call returns anything other than [n], the pass writes the mismatch
    line to stderr, writes its usual log line, issues no second [sendto],
    and the loop goes on with the next [read]. *)
Theorem uplink_send_mismatch_logged (NDEBUG : bool) (vport : vport_t)
    (ether_data frame : list Z) (sendsz : Z) (ins : list uplink_input) :
  let got := take (Z.to_nat ETHER_MAX_LEN) frame in
  let n := Z.of_nat (length got) in
  let buf := got ++ drop (length got) ether_data in
  0 < n →
  NDEBUG = true ∨ 14 ≤ n →
  sendsz ≠ n →
  forward_ether_data_to_vswitch NDEBUG vport ether_data
    (mk_uplink_input (ReadFrame frame) sendsz :: ins)
  = after [EvRead (tapfd vport) ETHER_MAX_LEN;
           EvSendto (vport_sockfd vport) got (vswitch_addr vport);
           EvStderr (MsgSendtoMismatch n sendsz);
           EvStdout (MsgSentToVSwitch (ether_dhost buf) (ether_shost buf)
                       (ether_type buf) n)]
          (forward_ether_data_to_vswitch NDEBUG vport buf ins).
Proof.
  intros got n buf Hpos Hsize Hneq.
  cbn [forward_ether_data_to_vswitch]. rewrite uplink_pass_frame.
  fold got. fold n. fold buf.
  rewrite (proj2 (Z.ltb_lt 0 n) Hpos).
  replace (NDEBUG || (14 <=? n)) with true
    by (destruct Hsize as [-> | Hge]; [done | by rewrite (proj2 (Z.leb_le 14 n) Hge), orb_true_r]).
  rewrite (proj2 (Z.eqb_neq sendsz n) Hneq).
  reflexivity.
Qed.

Lemma uplink_send_mismatch_logged_witness :
  forward_ether_data_to_vswitch false vport0 stack_garbage
    [mk_uplink_input (ReadFrame arp_header) (-1);
     mk_uplink_input (ReadFrame arp_header) 14]
  = after [EvRead 3 ETHER_MAX_LEN;
           EvSendto 4 arp_header (vswitch_addr vport0);
           EvStderr (MsgSendtoMismatch 14 (-1));
           EvStdout (MsgSentToVSwitch (take 6 arp_header) (take 6 (drop 6 arp_header))
                       2054 14)]
          (forward_ether_data_to_vswitch false vport0
             (arp_header ++ drop 14 stack_garbage)
             [mk_uplink_input (ReadFrame arp_header) 14]).
Proof.
  apply (uplink_send_mismatch_logged false vport0 stack_garbage arp_header (-1)
           [mk_uplink_input (ReadFrame arp_header) 14]).
  - simpl. lia.
  - right. simpl. lia.
  - simpl. lia.
Defined.

(** C2, as stated, fails: with assertions compiled in, a 5-byte frame read
    from the TAP device halts the process on the size assertion, so the
    frame that follows is never read. *)
Lemma runt_frame_dropped_counterexample :
  (0 < length runt < 14)%nat
  ∧ ¬ returned (uplink_pass false vport0 stack_garbage (mk_uplink_input (ReadFrame runt) 5))
  ∧ forward_ether_data_to_vswitch false vport0 stack_garbage
      [mk_uplink_input (ReadFrame runt) 5; mk_uplink_input (ReadFrame arp_header) 14]
    = mkProc [EvRead 3 ETHER_MAX_LEN] (Halted AssertFailed).
Proof.
  split; [simpl; lia |]. split; [| reflexivity].
  intros [a Ha]. vm_compute in Ha. discriminate.
Qed.

(** C2, amended.  For a frame of 1 to 13 bytes read from the TAP device or
    received from the socket: compiled with assertions, the pump halts the
    process on [assert(ether_datasz >= 14)] before anything is forwarded,
    and no later frame is processed; compiled with [NDEBUG], the frame is
    forwarded like any other and the loop goes on. *)
Theorem runt_frame_fails_assertion (vport : vport_t) (ether_data frame : list Z)
    (ret : Z) (src : sockaddr_in) (ups : list uplink_input) (downs : list downlink_input) :
  (0 < length frame < 14)%nat →
  forward_ether_data_to_vswitch false vport ether_data
    (mk_uplink_input (ReadFrame frame) ret :: ups)
  = mkProc [EvRead (tapfd vport) ETHER_MAX_LEN] (Halted AssertFailed)
  ∧ forward_ether_data_to_tap false vport ether_data
      (mk_downlink_input (RecvDatagram frame src) ret :: downs)
    = mkProc [EvRecvfrom (vport_sockfd vport) ETHER_MAX_LEN] (Halted AssertFailed)
  ∧ sent_datagrams
      (trace (uplink_pass true vport ether_data (mk_uplink_input (ReadFrame frame) ret)))
    = [(frame, vswitch_addr vport)]
  ∧ tap_writes
      (trace (downlink_pass true vport ether_data
                (mk_downlink_input (RecvDatagram frame src) ret)))
    = [frame]
  ∧ returned (uplink_pass true vport ether_data (mk_uplink_input (ReadFrame frame) ret))
  ∧ returned (downlink_pass true vport ether_data
                (mk_downlink_input (RecvDatagram frame src) ret)).
Proof.
  intros [Hpos Hlt].
  cbn [forward_ether_data_to_vswitch forward_ether_data_to_tap].
  rewrite !uplink_pass_frame, !downlink_pass_datagram. cbv zeta.
  rewrite take_ge by (unfold ETHER_MAX_LEN; lia).
  rewrite (proj2 (Z.ltb_lt 0 _)) by lia.
  rewrite (proj2 (Z.leb_gt 14 _)) by lia.
  cbn [orb].
  repeat split; try reflexivity; try (destruct (ret =? _); reflexivity).
  - eexists. reflexivity.
  - eexists. reflexivity.
Qed.

Lemma runt_frame_fails_assertion_witness :
  forward_ether_data_to_vswitch false vport0 stack_garbage
    [mk_uplink_input (ReadFrame runt) 5; mk_uplink_input (ReadFrame arp_header) 14]
  = mkProc [EvRead (tapfd vport0) ETHER_MAX_LEN] (Halted AssertFailed).
Proof.
  apply (runt_frame_fails_assertion vport0 stack_garbage runt 5 stranger
           [mk_uplink_input (ReadFrame arp_header) 14] []).
  simpl. lia.
Defined.

(** C4, as stated, fails: after a failed [read] on the TAP device the uplink
    is still running and sends the next frame; after a failed [write] on the
    TAP device the downlink is still running and writes the next frame. *)
Lemma local_failure_fatal_counterexample :
  let up := forward_ether_data_to_vswitch false vport0 stack_garbage
              [mk_uplink_input ReadFails 0; mk_uplink_input (ReadFrame arp_header) 14] in
  let down := forward_ether_data_to_tap false vport0 stack_garbage
                [mk_downlink_input (RecvDatagram arp_header (vswitch_addr vport0)) (-1);
                 mk_downlink_input (RecvDatagram arp_header (vswitch_addr vport0)) 14] in
  (returned up ∧ sent_datagrams (trace up) = [(arp_header, vswitch_addr vport0)])
  ∧ (returned down ∧ tap_writes (trace down) = [arp_header; arp_header]).
Proof.
  split; (split; [eexists |]); reflexivity.
Qed.

(** C4, amended.  A negative return of [read] in the uplink is ignored:
    nothing is sent or logged and the loop goes on with the next [read].  A
    negative return of [write] in the downlink is logged on stderr as a size
    mismatch, the usual log line follows, and the loop goes on with the next
    [recvfrom].  Neither stops the pump. *)
Theorem local_failure_not_fatal (NDEBUG : bool) (vport : vport_t)
    (ether_data data : list Z) (src : sockaddr_in) (ret sendsz : Z)
    (ups : list uplink_input) (downs : list downlink_input) :
  let got := take (Z.to_nat ETHER_MAX_LEN) data in
  let n := Z.of_nat (length got) in
  let buf := got ++ drop (length got) ether_data in
  forward_ether_data_to_vswitch NDEBUG vport ether_data (mk_uplink_input ReadFails ret :: ups)
  = after [EvRead (tapfd vport) ETHER_MAX_LEN]
          (forward_ether_data_to_vswitch NDEBUG vport ether_data ups)
  ∧ (0 < n → NDEBUG = true ∨ 14 ≤ n → sendsz < 0 →
     forward_ether_data_to_tap NDEBUG vport ether_data
       (mk_downlink_input (RecvDatagram data src) sendsz :: downs)
     = after [EvRecvfrom (vport_sockfd vport) ETHER_MAX_LEN;
              EvWrite (tapfd vport) got;
              EvStderr (MsgWriteMismatch n sendsz);
              EvStdout (MsgForwardToTap (ether_dhost buf) (ether_shost buf)
                          (ether_type buf) n)]
             (forward_ether_data_to_tap NDEBUG
                (mk_vport (tapfd vport) (vport_sockfd vport) src) buf downs)).
Proof.
  intros got n buf. split; [reflexivity |].
  intros Hpos Hsize Hneg.
  cbn [forward_ether_data_to_tap]. rewrite downlink_pass_datagram.
  fold got. fold n. fold buf.
  rewrite (proj2 (Z.ltb_lt 0 n) Hpos).
  replace (NDEBUG || (14 <=? n)) with true
    by (destruct Hsize as [-> | Hge]; [done | by rewrite (proj2 (Z.leb_le 14 n) Hge), orb_true_r]).
  rewrite (proj2 (Z.eqb_neq sendsz n)) by lia.
  reflexivity.
Qed.

Lemma local_failure_not_fatal_witness :
  forward_ether_data_to_tap false vport0 stack_garbage
    [mk_downlink_input (RecvDatagram arp_header (vswitch_addr vport0)) (-1);
     mk_downlink_input (RecvDatagram arp_header (vswitch_addr vport0)) 14]
  = after [EvRecvfrom 4 ETHER_MAX_LEN;
           EvWrite 3 arp_header;
           EvStderr (MsgWriteMismatch 14 (-1));
           EvStdout (MsgForwardToTap (take 6 arp_header) (take 6 (drop 6 arp_header))
                       2054 14)]
          (forward_ether_data_to_tap false vport0 (arp_header ++ drop 14 stack_garbage)
             [mk_downlink_input (RecvDatagram arp_header (vswitch_addr vport0)) 14]).
Proof.
  apply (local_failure_not_fatal false vport0 stack_garbage arp_header
           (vswitch_addr vport0) 0 (-1) []
           [mk_downlink_input (RecvDatagram arp_header (vswitch_addr vport0)) 14]).
  - simpl. lia.
  - right. simpl. lia.
  - lia.
Defined.

(** C1, evaluated on the code.  The switch is configured as
    127.0.0.1:8080.  A datagram arrives from another sender: after the
    downlink's pass, [vport->vswitch_addr] holds that sender's address, and
    the uplink's next frame is sent to it instead of to the switch. *)
Theorem recvfrom_overwrites_vswitch_addr :
  let b0 := mk_bridge vport0 stack_garbage stack_garbage in
  let run := run_bridge false b0
               [Down (mk_downlink_input (RecvDatagram arp_header stranger) 14);
                Up (mk_uplink_input (ReadFrame arp_header) 14)] in
  stranger ≠ vswitch_addr vport0
  ∧ (∃ b, res run = Done b ∧ vswitch_addr (shared b) = stranger)
  ∧ sent_datagrams (trace run) = [(arp_header, stranger)].
Proof.
  split; [discriminate |]. split; [eexists; split |]; reflexivity.
Qed.

(** Whenever the downlink's pass receives a datagram and comes back, the
    shared structure holds the sender of that datagram. *)
Lemma downlink_pass_stores_sender (NDEBUG : bool) (vport vport' : vport_t)
    (ether_data buf data : list Z) (src : sockaddr_in) (ret : Z) :
  res (downlink_pass NDEBUG vport ether_data (mk_downlink_input (RecvDatagram data src) ret))
  = Done (vport', buf) →
  vswitch_addr vport' = src.
Proof.
  rewrite downlink_pass_datagram. cbv zeta.
  repeat case_match; simpl; intros [= <- _]; try done.
Qed.

(** ** The switch *)

Module VSwitchFacts.
Import VSwitch.

Lemma flood_excludes_source (ps : gset (Z * Z)) (source_address p : port_identity) :
  p ∈ flood ps source_address → p ≠ source_address.
Proof.
  unfold flood. rewrite elem_of_elements.
  intros [_ Hne]%elem_of_difference. by rewrite elem_of_singleton in Hne.
Qed.

Lemma decide_ports_excludes_source (idle_timeout now : Z) (sw : switch)
    (dst : mac_address) (source_address p : port_identity) :
  p ∈ decide_ports idle_timeout now sw dst source_address → p ≠ source_address.
Proof.
  unfold decide_ports.
  destruct (bool_decide (dst = broadcast) || is_multicast dst).
  - apply flood_excludes_source.
  - destruct (lookup idle_timeout now dst (mac_table sw)) as [q |].
    + case_bool_decide as Hq; [by intros []%elem_of_nil |].
      by intros ->%list_elem_of_singleton.
    + apply flood_excludes_source.
Qed.

End VSwitchFacts.

(** C5.  No transmission of the forwarding engine goes to the address the
    frame came from; and a frame of at least 14 bytes whose destination is
    neither broadcast nor multicast and is known, after learning, at the
    source address itself, is transmitted to nobody. *)
Theorem switch_no_self_echo (idle_timeout now : Z) (sw : VSwitch.switch) (frame : list Z)
    (source_address : VSwitch.port_identity) :
  let r := VSwitch.process_frame idle_timeout now sw frame source_address in
  (∀ p f, (p, f) ∈ r.2 → p ≠ source_address)
  ∧ ((14 ≤ length frame)%nat →
     take 6 frame ≠ VSwitch.broadcast →
     VSwitch.is_multicast (take 6 frame) = false →
     VSwitch.lookup idle_timeout now (take 6 frame) (VSwitch.mac_table r.1)
       = Some source_address →
     r.2 = []).
Proof.
  unfold VSwitch.process_frame. cbv zeta.
  destruct (length frame <? 14)%nat eqn:Hlen; simpl.
  - split; [by intros p f []%elem_of_nil |].
    intros Hge. apply Nat.ltb_lt in Hlen. lia.
  - split.
    + intros p f (q & [= -> _] & Hq)%list_elem_of_fmap.
      by apply VSwitchFacts.decide_ports_excludes_source in Hq.
    + intros _ Hb Hm Hknown. unfold VSwitch.decide_ports. simpl.
      rewrite bool_decide_eq_false_2 by done. rewrite Hm, Hknown. simpl.
      by rewrite bool_decide_eq_true_2.
Qed.

Lemma switch_no_self_echo_witness :
  (VSwitch.process_frame 300 0 switch0 self_frame port_a).2 = [].
Proof.
  apply (proj2 (switch_no_self_echo 300 0 switch0 self_frame port_a)).
  - simpl. lia.
  - discriminate.
  - reflexivity.
  - vm_compute. reflexivity.
Defined.

(** * Further properties of the code *)

(** ** [tap_alloc] *)

(** X1.  When [open("/dev/net/tun")] fails, [tap_alloc] makes no other system
    call (no ioctl, no close), returns the negative value [open] gave, and
    leaves the caller's buffer as it was. *)
Theorem tap_alloc_without_tun_device (env : setup_env) (dev : string) :
  env_open env "/dev/net/tun" O_RDWR < 0 →
  trace (tap_alloc env dev) = [EvOpen "/dev/net/tun" O_RDWR]
  ∧ res (tap_alloc env dev) = Done (env_open env "/dev/net/tun" O_RDWR, dev).
Proof.
  intros Hfd. unfold tap_alloc, sys_open, emit_ret. rewrite bind_after.
  rewrite (proj2 (Z.ltb_lt _ _) Hfd). by split.
Qed.

Lemma tap_alloc_without_tun_device_witness :
  trace (tap_alloc no_tun_env "tapyuan") = [EvOpen "/dev/net/tun" O_RDWR]
  ∧ res (tap_alloc no_tun_env "tapyuan") = Done (-1, "tapyuan"%string).
Proof.
  apply (tap_alloc_without_tun_device no_tun_env "tapyuan"). simpl. lia.
Defined.

(** X2.  Read off the result, as the caller does: a negative result means that
    the caller's buffer is untouched; a result that is not negative is the
    descriptor [open] returned, the buffer then holds the name the kernel
    left in [ifr], and that descriptor has not been closed. *)
Theorem tap_alloc_result (env : setup_env) (dev dev' : string) (r : Z) :
  res (tap_alloc env dev) = Done (r, dev') →
  (r < 0 → dev' = dev)
  ∧ (0 ≤ r →
     r = env_open env "/dev/net/tun" O_RDWR
     ∧ dev' = ifr_name (env_tunsetiff env r (tap_ifreq dev)).2
     ∧ 0 ≤ (env_tunsetiff env r (tap_ifreq dev)).1
     ∧ EvClose r ∉ trace (tap_alloc env dev)).
Proof.
  unfold tap_alloc, sys_open, sys_ioctl_tunsetiff, emit_ret. rewrite bind_after.
  branch_on (env_open env "/dev/net/tun" O_RDWR <? 0).
  - cbn. intros [= <- <-]. split; [done | lia].
  - destruct (env_tunsetiff env _ _) as [err ifr] eqn:Hioctl. rewrite bind_after.
    branch_on (err <? 0); cbn; intros [= <- <-].
    + split; [done | lia].
    + split; [lia |]. intros _. rewrite Hioctl. cbn.
      repeat split; [done |].
      rewrite !elem_of_cons. intros [? | [? | []%elem_of_nil]]; discriminate.
Qed.

Lemma tap_alloc_result_witness :
  3 = env_open good_env "/dev/net/tun" O_RDWR
  ∧ "tapyuan"%string = ifr_name (env_tunsetiff good_env 3 (tap_ifreq "")).2
  ∧ 0 ≤ (env_tunsetiff good_env 3 (tap_ifreq "")).1
  ∧ EvClose 3 ∉ trace (tap_alloc good_env "").
Proof.
  apply (tap_alloc_result good_env "" "tapyuan" 3); [reflexivity | lia].
Defined.

Lemma substring_0_length (n : nat) (s : string) :
  (String.length (substring 0 n s) ≤ n)%nat.
Proof.
  revert n. induction s as [| c s IH]; intros [| n]; simpl; try lia.
  specialize (IH n). lia.
Qed.

Lemma substring_0_whole (n : nat) (s : string) :
  (String.length s ≤ n)%nat → substring 0 n s = s.
Proof.
  revert n. induction s as [| c s IH]; intros [| n]; simpl; try done; try lia.
  intros Hle. f_equal. apply IH. lia.
Qed.

(** X3.  The request sent with TUNSETIFF always carries the flags
    [IFF_TAP | IFF_NO_PI] (0x1002); the name in it never has more than
    [IFNAMSIZ] characters, is the requested name when that is shorter than
    [IFNAMSIZ], and is empty exactly when the caller asked for no name. *)
Theorem tap_ifreq_request (dev : string) :
  ifr_flags (tap_ifreq dev) = 4098
  ∧ (String.length (ifr_name (tap_ifreq dev)) ≤ IFNAMSIZ)%nat
  ∧ ((String.length dev < IFNAMSIZ)%nat → ifr_name (tap_ifreq dev) = dev)
  ∧ (ifr_name (tap_ifreq dev) = EmptyString ↔ dev = EmptyString).
Proof.
  unfold tap_ifreq, strncpy.
  destruct (String.eqb_spec dev "") as [-> | Hne]; simpl.
  - repeat split; unfold IFNAMSIZ; simpl; lia.
  - split; [done |]. split; [apply substring_0_length |].
    split; [intros Hlt; apply substring_0_whole; lia |].
    split; [| done]. destruct dev; [done | discriminate].
Qed.

Lemma tap_ifreq_request_witness :
  ifr_name (tap_ifreq "tapyuan") = "tapyuan"%string.
Proof.
  apply (tap_ifreq_request "tapyuan"). simpl. unfold IFNAMSIZ. lia.
Defined.

(** ** [vport_init] *)

(** X4.  When [tap_alloc], [socket] and [inet_pton] all succeed, [vport_init]
    makes exactly the system calls of [tap_alloc] and one [socket] call,
    prints the name the kernel gave the TAP device, and returns the
    descriptors and the switch address. *)
Theorem vport_init_success (env : setup_env) (server_ip_str ifname : string)
    (server_port tapfd addr : Z) :
  res (tap_alloc env "tapyuan") = Done (tapfd, ifname) →
  0 ≤ tapfd →
  0 ≤ env_socket env AF_INET SOCK_DGRAM 0 →
  env_parse_ipv4 env server_ip_str = Some addr →
  vport_init env server_ip_str server_port =
    mkProc (trace (tap_alloc env "tapyuan")
              ++ [EvSocket AF_INET SOCK_DGRAM 0;
                  EvStdout (MsgTapDevice ifname server_ip_str server_port)])
           (Done (mk_vport tapfd (env_socket env AF_INET SOCK_DGRAM 0)
                    (mk_sockaddr_in AF_INET (htons server_port) addr))).
Proof.
  intros Htap Hfd Hsock Hparse.
  unfold vport_init. rewrite (bind_done _ _ _ Htap). cbn.
  rewrite (proj2 (Z.ltb_ge _ _) Hfd). cbn.
  rewrite (proj2 (Z.ltb_ge _ _) Hsock). cbn.
  unfold inet_pton. by rewrite Hparse.
Qed.

Lemma vport_init_success_witness :
  vport_init good_env "127.0.0.1" 8080 =
    mkProc (trace (tap_alloc good_env "tapyuan")
              ++ [EvSocket AF_INET SOCK_DGRAM 0;
                  EvStdout (MsgTapDevice "tapyuan" "127.0.0.1" 8080)])
           (Done vport0).
Proof.
  apply (vport_init_success good_env "127.0.0.1" "tapyuan" 8080 3 loopback);
    [reflexivity | lia | simpl; lia | reflexivity].
Defined.

(** X5.  [vport_init] halts in one way only, [exit(1)], and the last thing it
    did before is to write a line on stderr. *)
Theorem vport_init_halts_by_exit_1 (env : setup_env) (server_ip_str : string)
    (server_port : Z) (h : halt) :
  res (vport_init env server_ip_str server_port) = Halted h →
  h = Exited 1
  ∧ ∃ m, last (trace (vport_init env server_ip_str server_port)) = Some (EvStderr m).
Proof.
  destruct (tap_alloc_returns env "tapyuan") as [[fd ifname] Htap].
  unfold vport_init. rewrite (bind_done _ _ _ Htap).
  generalize (trace (tap_alloc env "tapyuan")). intros tap. cbn.
  branch_on (fd <? 0); cbn.
  { intros [= <-]. split; [done |]. exists MsgFailTapAlloc. apply last_snoc. }
  branch_on (env_socket env AF_INET SOCK_DGRAM 0 <? 0); cbn.
  { intros [= <-]. split; [done |]. exists MsgFailSocket.
    by rewrite (last_app_cons _ [_]). }
  unfold inet_pton.
  destruct (env_parse_ipv4 env server_ip_str) as [a |]; cbn; [discriminate |].
  intros [= <-]. split; [done |]. exists MsgFailInetPton.
  by rewrite (last_app_cons _ [_]).
Qed.

Lemma vport_init_halts_by_exit_1_witness :
  Exited 1 = Exited 1
  ∧ ∃ m, last (trace (vport_init no_socket_env "127.0.0.1" 8080)) = Some (EvStderr m).
Proof.
  apply (vport_init_halts_by_exit_1 no_socket_env "127.0.0.1" 8080 (Exited 1)).
  reflexivity.
Defined.

(** ** One pass of a pump *)

Lemma vport_eta (vport : vport_t) :
  mk_vport (tapfd vport) (vport_sockfd vport) (vswitch_addr vport) = vport.
Proof. by destruct vport. Qed.

(** X6.  Zero bytes.  A [read] that returns 0 sends nothing and prints nothing.
    A [recvfrom] that fails leaves the shared structure as it was.  A
    datagram of length 0 is neither written to the TAP device nor logged,
    but its sender still replaces [vport->vswitch_addr].  In each case the
    buffer is unchanged and the loop goes on. *)
Theorem pumps_zero_bytes (NDEBUG : bool) (vport : vport_t) (ether_data : list Z)
    (src : sockaddr_in) (ret : Z) (ups : list uplink_input) (downs : list downlink_input) :
  forward_ether_data_to_vswitch NDEBUG vport ether_data
    (mk_uplink_input (ReadFrame []) ret :: ups)
  = after [EvRead (tapfd vport) ETHER_MAX_LEN]
          (forward_ether_data_to_vswitch NDEBUG vport ether_data ups)
  ∧ forward_ether_data_to_tap NDEBUG vport ether_data
      (mk_downlink_input RecvFails ret :: downs)
    = after [EvRecvfrom (vport_sockfd vport) ETHER_MAX_LEN]
            (forward_ether_data_to_tap NDEBUG vport ether_data downs)
  ∧ forward_ether_data_to_tap NDEBUG vport ether_data
      (mk_downlink_input (RecvDatagram [] src) ret :: downs)
    = after [EvRecvfrom (vport_sockfd vport) ETHER_MAX_LEN]
            (forward_ether_data_to_tap NDEBUG
               (mk_vport (tapfd vport) (vport_sockfd vport) src) ether_data downs).
Proof.
  split; [| split].
  - cbn [forward_ether_data_to_vswitch]. rewrite uplink_pass_frame. reflexivity.
  - cbn [forward_ether_data_to_tap]. rewrite downlink_pass_recv_fails, bind_after.
    by rewrite vport_eta.
  - cbn [forward_ether_data_to_tap]. rewrite downlink_pass_datagram. reflexivity.
Qed.

(** X7.  A frame or datagram longer than the buffer is forwarded cut to its first
    1518 bytes. *)
Theorem oversized_frame_truncated (NDEBUG : bool) (vport : vport_t)
    (ether_data frame : list Z) (ret : Z) (src : sockaddr_in) :
  (1518 < length frame)%nat →
  sent_datagrams
    (trace (uplink_pass NDEBUG vport ether_data (mk_uplink_input (ReadFrame frame) ret)))
  = [(take 1518 frame, vswitch_addr vport)]
  ∧ tap_writes
      (trace (downlink_pass NDEBUG vport ether_data
                (mk_downlink_input (RecvDatagram frame src) ret)))
    = [take 1518 frame].
Proof.
  intros Hlong.
  rewrite uplink_pass_frame, downlink_pass_datagram. cbv zeta.
  change (Z.to_nat ETHER_MAX_LEN) with 1518%nat.
  rewrite length_take_le by lia.
  change (0 <? Z.of_nat 1518) with true. change (14 <=? Z.of_nat 1518) with true.
  rewrite orb_true_r.
  split; destruct (ret =? _); reflexivity.
Qed.

Lemma oversized_frame_truncated_witness :
  sent_datagrams
    (trace (uplink_pass false vport0 stack_garbage (mk_uplink_input (ReadFrame jumbo) 1518)))
  = [(take 1518 jumbo, vswitch_addr vport0)]
  ∧ tap_writes
      (trace (downlink_pass false vport0 stack_garbage
                (mk_downlink_input (RecvDatagram jumbo stranger) 1518)))
    = [take 1518 jumbo].
Proof.
  apply (oversized_frame_truncated false vport0 stack_garbage jumbo 1518 stranger).
  unfold jumbo. rewrite length_replicate. lia.
Defined.

(** The header fields of a buffer that starts with a whole header are those
    of the header, whatever follows. *)
Lemma header_of_prefix (got rest : list Z) :
  (14 ≤ length got)%nat →
  ether_dhost (got ++ rest) = ether_dhost got
  ∧ ether_shost (got ++ rest) = ether_shost got
  ∧ ether_type (got ++ rest) = ether_type got.
Proof.
  intros Hlen. unfold ether_dhost, ether_shost, ether_type.
  rewrite take_app_le by lia. rewrite drop_app_le by lia.
  rewrite take_app_le by (rewrite length_drop; lia).
  rewrite !lookup_app_l by lia. done.
Qed.

(** X8.  The log line of a pass reports the destination, source, EtherType and
    length of the frame just forwarded; nothing of what the buffer held
    before shows in it. *)
Theorem log_line_reports_frame (NDEBUG : bool) (vport : vport_t)
    (ether_data frame : list Z) (ret : Z) (src : sockaddr_in) :
  (14 ≤ length frame ≤ 1518)%nat →
  last (trace (uplink_pass NDEBUG vport ether_data (mk_uplink_input (ReadFrame frame) ret)))
  = Some (EvStdout (MsgSentToVSwitch (take 6 frame) (take 6 (drop 6 frame))
                      (ether_type frame) (Z.of_nat (length frame))))
  ∧ last (trace (downlink_pass NDEBUG vport ether_data
                   (mk_downlink_input (RecvDatagram frame src) ret)))
    = Some (EvStdout (MsgForwardToTap (take 6 frame) (take 6 (drop 6 frame))
                        (ether_type frame) (Z.of_nat (length frame)))).
Proof.
  intros [Hmin Hmax].
  rewrite uplink_pass_frame, downlink_pass_datagram. cbv zeta.
  rewrite take_ge by (unfold ETHER_MAX_LEN; lia).
  rewrite (proj2 (Z.ltb_lt 0 _)) by lia.
  rewrite (proj2 (Z.leb_le 14 _)) by lia.
  rewrite orb_true_r.
  destruct (header_of_prefix frame (drop (length frame) ether_data) Hmin)
    as (-> & -> & ->).
  split; destruct (ret =? _); reflexivity.
Qed.

Lemma log_line_reports_frame_witness :
  last (trace (uplink_pass false vport0 stack_garbage
                 (mk_uplink_input (ReadFrame arp_header) 14)))
  = Some (EvStdout (MsgSentToVSwitch [255; 255; 255; 255; 255; 255] [2; 0; 0; 0; 0; 1]
                      2054 14)).
Proof.
  apply (log_line_reports_frame false vport0 stack_garbage arp_header 14 stranger).
  simpl. lia.
Defined.

(** X9.  A pass writes on stderr exactly when [sendto], respectively [write],
    returned something other than the number of bytes it was given. *)
Theorem stderr_iff_size_mismatch (NDEBUG : bool) (vport : vport_t)
    (ether_data frame : list Z) (ret : Z) (src : sockaddr_in) :
  (14 ≤ length frame ≤ 1518)%nat →
  (Exists is_stderr
     (trace (uplink_pass NDEBUG vport ether_data (mk_uplink_input (ReadFrame frame) ret)))
   ↔ ret ≠ Z.of_nat (length frame))
  ∧ (Exists is_stderr
       (trace (downlink_pass NDEBUG vport ether_data
                 (mk_downlink_input (RecvDatagram frame src) ret)))
     ↔ ret ≠ Z.of_nat (length frame)).
Proof.
  intros [Hmin Hmax].
  rewrite uplink_pass_frame, downlink_pass_datagram. cbv zeta.
  rewrite take_ge by (unfold ETHER_MAX_LEN; lia).
  rewrite (proj2 (Z.ltb_lt 0 _)) by lia.
  rewrite (proj2 (Z.leb_le 14 _)) by lia.
  rewrite orb_true_r.
  split; branch_on (ret =? Z.of_nat (length frame)); simpl;
    rewrite ?Exists_cons, Exists_nil; simpl; tauto.
Qed.

Lemma stderr_iff_size_mismatch_witness :
  Exists is_stderr
    (trace (uplink_pass false vport0 stack_garbage
              (mk_uplink_input (ReadFrame arp_header) 10)))
  ↔ 10 ≠ Z.of_nat (length arp_header).
Proof.
  apply (stderr_iff_size_mismatch false vport0 stack_garbage arp_header 10 stranger).
  simpl. lia.
Defined.

(** ** Runs of the two threads *)

Section BridgeFacts.

Variable NDEBUG : bool.

Lemma bridge_turn_up (b : bridge) (i : uplink_input) :
  bridge_turn NDEBUG b (Up i)
  = mkProc (trace (uplink_pass NDEBUG (shared b) (up_buf b) i))
           match res (uplink_pass NDEBUG (shared b) (up_buf b) i) with
           | Done buf => Done (mk_bridge (shared b) buf (down_buf b))
           | Halted h => Halted h
           end.
Proof.
  unfold bridge_turn, mbind, proc_mbind, proc_bind.
  destruct (res (uplink_pass _ _ _ _)); simpl; [by rewrite app_nil_r | done].
Qed.

Lemma bridge_turn_down (b : bridge) (i : downlink_input) :
  bridge_turn NDEBUG b (Down i)
  = mkProc (trace (downlink_pass NDEBUG (shared b) (down_buf b) i))
           match res (downlink_pass NDEBUG (shared b) (down_buf b) i) with
           | Done (vport, buf) => Done (mk_bridge vport (up_buf b) buf)
           | Halted h => Halted h
           end.
Proof.
  unfold bridge_turn, mbind, proc_mbind, proc_bind.
  destruct (res (downlink_pass _ _ _ _)) as [[vport buf] | h]; simpl;
    [by rewrite app_nil_r | done].
Qed.

(** Proof rule for runs: what every turn keeps, every run keeps. *)
Lemma run_bridge_invariant (Q : turn → Prop) (I : bridge → Prop) (P : event → Prop) :
  (∀ b t, Q t → I b →
     Forall P (trace (bridge_turn NDEBUG b t))
     ∧ ∀ b', res (bridge_turn NDEBUG b t) = Done b' → I b') →
  ∀ sched b, Forall Q sched → I b →
    Forall P (trace (run_bridge NDEBUG b sched))
    ∧ ∀ b', res (run_bridge NDEBUG b sched) = Done b' → I b'.
Proof.
  intros Hturn sched. induction sched as [| t sched IH]; intros b Hsched Hb.
  - split; [constructor | by intros b' [= <-]].
  - apply Forall_cons in Hsched as [Ht Hsched].
    destruct (Hturn b t Ht Hb) as [Htr Hres].
    cbn [run_bridge]. unfold mbind, proc_mbind, proc_bind.
    destruct (res (bridge_turn NDEBUG b t)) as [b1 | h]; simpl.
    + destruct (IH b1 Hsched (Hres b1 eq_refl)) as [Htr' Hres'].
      split; [by apply Forall_app | done].
    + split; [done | discriminate].
Qed.

End BridgeFacts.

Lemma turn_keeps_descriptors (NDEBUG : bool) (tap sock : Z) (b : bridge) (t : turn) :
  tapfd (shared b) = tap ∧ vport_sockfd (shared b) = sock →
  Forall (uses_descriptors tap sock) (trace (bridge_turn NDEBUG b t))
  ∧ ∀ b', res (bridge_turn NDEBUG b t) = Done b' →
          tapfd (shared b') = tap ∧ vport_sockfd (shared b') = sock.
Proof.
  destruct t as [[[| frame] ret] | [[| data src] ret]]; intros [Htap Hsock].
  - rewrite bridge_turn_up, uplink_pass_read_fails. simpl.
    split; [turn_cases | by intros b' [= <-]].
  - rewrite bridge_turn_up, uplink_pass_frame. cbv zeta.
    split; [turn_cases | intros b'; turn_cases].
  - rewrite bridge_turn_down, downlink_pass_recv_fails. simpl.
    split; [turn_cases | by intros b' [= <-]].
  - rewrite bridge_turn_down, downlink_pass_datagram. cbv zeta.
    split; [turn_cases | intros b'; turn_cases].
Qed.

Lemma turn_keeps_destination (NDEBUG : bool) (addr : sockaddr_in) (b : bridge) (t : turn) :
  sender_is addr t →
  vswitch_addr (shared b) = addr →
  Forall (sends_only_to addr) (trace (bridge_turn NDEBUG b t))
  ∧ ∀ b', res (bridge_turn NDEBUG b t) = Done b' → vswitch_addr (shared b') = addr.
Proof.
  destruct t as [[[| frame] ret] | [[| data src] ret]]; intros Hfrom Haddr;
    simpl in Hfrom.
  - rewrite bridge_turn_up, uplink_pass_read_fails. simpl.
    split; [turn_cases | by intros b' [= <-]].
  - rewrite bridge_turn_up, uplink_pass_frame. cbv zeta.
    split; [turn_cases | intros b'; turn_cases].
  - rewrite bridge_turn_down, downlink_pass_recv_fails. simpl.
    split; [turn_cases | by intros b' [= <-]].
  - rewrite bridge_turn_down, downlink_pass_datagram. cbv zeta.
    split; [turn_cases | intros b'; turn_cases].
Qed.

(** X10.  The pumps only ever use the two descriptors of the shared structure:
    every [read] and [write] is on [tapfd], every [sendto] and [recvfrom] on
    [vport_sockfd]; and no run changes either field. *)
Theorem pumps_keep_descriptors (NDEBUG : bool) (b : bridge) (sched : list turn) :
  Forall (uses_descriptors (tapfd (shared b)) (vport_sockfd (shared b)))
         (trace (run_bridge NDEBUG b sched))
  ∧ ∀ b', res (run_bridge NDEBUG b sched) = Done b' →
          tapfd (shared b') = tapfd (shared b)
          ∧ vport_sockfd (shared b') = vport_sockfd (shared b).
Proof.
  apply (run_bridge_invariant NDEBUG (λ _, True)
           (λ b', tapfd (shared b') = tapfd (shared b)
                  ∧ vport_sockfd (shared b') = vport_sockfd (shared b)));
    [| by apply Forall_true | done].
  intros b0 t _. apply turn_keeps_descriptors.
Qed.

Lemma pumps_keep_descriptors_witness :
  let b0 := mk_bridge vport0 stack_garbage stack_garbage in
  let b1 := mk_bridge (mk_vport 3 4 stranger) stack_garbage
              (arp_header ++ drop 14 stack_garbage) in
  tapfd (shared b1) = tapfd (shared b0)
  ∧ vport_sockfd (shared b1) = vport_sockfd (shared b0).
Proof.
  intros b0 b1.
  apply (proj2 (pumps_keep_descriptors false b0
                  [Down (mk_downlink_input (RecvDatagram arp_header stranger) 14)])).
  reflexivity.
Defined.

Lemma store_keeps_size (buf data : list Z) :
  length buf = 1518%nat →
  length (take (Z.to_nat ETHER_MAX_LEN) data
          ++ drop (length (take (Z.to_nat ETHER_MAX_LEN) data)) buf) = 1518%nat.
Proof.
  intros Hbuf. rewrite length_app, length_drop, length_take, Hbuf.
  unfold ETHER_MAX_LEN. lia.
Qed.

(** X11.  Each thread's buffer keeps its 1518 bytes through every run: whatever
    arrives, nothing is stored past the end of [ether_data]. *)
Theorem pumps_keep_buffer_size (NDEBUG : bool) (b b' : bridge) (sched : list turn) :
  length (up_buf b) = 1518%nat →
  length (down_buf b) = 1518%nat →
  res (run_bridge NDEBUG b sched) = Done b' →
  length (up_buf b') = 1518%nat ∧ length (down_buf b') = 1518%nat.
Proof.
  intros Hup Hdown.
  apply (run_bridge_invariant NDEBUG (λ _, True)
           (λ b0, length (up_buf b0) = 1518%nat ∧ length (down_buf b0) = 1518%nat)
           (λ _, True));
    [| by apply Forall_true | done].
  intros b0 [[[| frame] ret] | [[| data src] ret]] _ [Hu Hd];
    (split; [by apply Forall_true |]); intros b1.
  - rewrite bridge_turn_up, uplink_pass_read_fails. by intros [= <-].
  - rewrite bridge_turn_up, uplink_pass_frame. cbv zeta.
    pose proof (store_keeps_size (up_buf b0) frame Hu). turn_cases.
  - rewrite bridge_turn_down, downlink_pass_recv_fails. by intros [= <-].
  - rewrite bridge_turn_down, downlink_pass_datagram. cbv zeta.
    pose proof (store_keeps_size (down_buf b0) data Hd). turn_cases.
Qed.

Lemma pumps_keep_buffer_size_witness :
  length (stack_garbage) = 1518%nat
  ∧ length (arp_header ++ drop 14 stack_garbage) = 1518%nat.
Proof.
  apply (pumps_keep_buffer_size false
           (mk_bridge vport0 stack_garbage stack_garbage)
           (mk_bridge (mk_vport 3 4 stranger) stack_garbage
              (arp_header ++ drop 14 stack_garbage))
           [Down (mk_downlink_input (RecvDatagram arp_header stranger) 14)]);
    reflexivity.
Defined.

(** X12.  As long as every datagram the socket delivers comes from the address in
    [vport->vswitch_addr], that address stays what it is and every datagram
    of the uplink is sent to it. *)
Theorem uplink_destination_without_foreign_senders (NDEBUG : bool) (b : bridge)
    (sched : list turn) :
  Forall (sender_is (vswitch_addr (shared b))) sched →
  Forall (sends_only_to (vswitch_addr (shared b))) (trace (run_bridge NDEBUG b sched))
  ∧ ∀ b', res (run_bridge NDEBUG b sched) = Done b' →
          vswitch_addr (shared b') = vswitch_addr (shared b).
Proof.
  intros Hsched.
  apply (run_bridge_invariant NDEBUG (sender_is (vswitch_addr (shared b)))
           (λ b', vswitch_addr (shared b') = vswitch_addr (shared b)));
    [| done | done].
  intros b0 t. apply turn_keeps_destination.
Qed.

Lemma uplink_destination_without_foreign_senders_witness :
  let b0 := mk_bridge vport0 stack_garbage stack_garbage in
  Forall (sends_only_to (vswitch_addr vport0))
    (trace (run_bridge false b0
              [Down (mk_downlink_input (RecvDatagram arp_header (vswitch_addr vport0)) 14);
               Up (mk_uplink_input (ReadFrame arp_header) 14)])).
Proof.
  intros b0.
  apply (uplink_destination_without_foreign_senders false b0
           [Down (mk_downlink_input (RecvDatagram arp_header (vswitch_addr vport0)) 14);
            Up (mk_uplink_input (ReadFrame arp_header) 14)]).
  repeat constructor.
Defined.

Section HaltFacts.

Variable NDEBUG : bool.

Lemma well_sized_take (data : list Z) :
  data = [] ∨ (14 ≤ length data)%nat →
  Z.of_nat (length (take (Z.to_nat ETHER_MAX_LEN) data)) = 0
  ∨ 14 ≤ Z.of_nat (length (take (Z.to_nat ETHER_MAX_LEN) data)).
Proof.
  intros [-> | Hlen]; [by left | right].
  rewrite length_take. unfold ETHER_MAX_LEN. lia.
Qed.

Lemma bridge_turn_halts (b : bridge) (t : turn) (h : halt) :
  res (bridge_turn NDEBUG b t) = Halted h →
  h = AssertFailed ∧ NDEBUG = false ∧ ¬ turn_well_sized t.
Proof.
  destruct t as [[[| frame] ret] | [[| data src] ret]]; simpl turn_well_sized.
  - rewrite bridge_turn_up, uplink_pass_read_fails. discriminate.
  - rewrite bridge_turn_up, uplink_pass_frame. cbv zeta.
    branch_on (0 <? Z.of_nat (length (take (Z.to_nat ETHER_MAX_LEN) frame)));
      [| discriminate].
    destruct NDEBUG; [simpl; discriminate |]. simpl.
    branch_on (14 <=? Z.of_nat (length (take (Z.to_nat ETHER_MAX_LEN) frame)));
      [discriminate |].
    simpl. intros [= <-]. repeat split.
    intros Hsz. apply well_sized_take in Hsz. lia.
  - rewrite bridge_turn_down, downlink_pass_recv_fails. discriminate.
  - rewrite bridge_turn_down, downlink_pass_datagram. cbv zeta.
    branch_on (0 <? Z.of_nat (length (take (Z.to_nat ETHER_MAX_LEN) data)));
      [| discriminate].
    destruct NDEBUG; [simpl; discriminate |]. simpl.
    branch_on (14 <=? Z.of_nat (length (take (Z.to_nat ETHER_MAX_LEN) data)));
      [discriminate |].
    simpl. intros [= <-]. repeat split.
    intros Hsz. apply well_sized_take in Hsz. lia.
Qed.

End HaltFacts.

(** X13.  The pumps never call [exit].  A run halts only on the size assertion:
    in a build without [NDEBUG], and only if some frame or datagram of the
    schedule had 1 to 13 bytes.  So with [NDEBUG], or while every frame is
    empty or has a whole header, the two loops run for ever. *)
Theorem pumps_halt_only_on_short_frame (NDEBUG : bool) (b : bridge) (sched : list turn)
    (h : halt) :
  res (run_bridge NDEBUG b sched) = Halted h →
  h = AssertFailed ∧ NDEBUG = false ∧ ¬ Forall turn_well_sized sched.
Proof.
  revert b. induction sched as [| t sched IH]; intros b; [discriminate |].
  cbn [run_bridge]. unfold mbind, proc_mbind, proc_bind.
  destruct (res (bridge_turn NDEBUG b t)) as [b1 | h1] eqn:Hturn; simpl.
  - intros Hrun. destruct (IH b1 Hrun) as (-> & -> & Hsched).
    repeat split. by intros [_ ?]%Forall_cons.
  - intros [= <-]. destruct (bridge_turn_halts NDEBUG b t h1 Hturn) as (-> & -> & Ht).
    repeat split. by intros [? _]%Forall_cons.
Qed.

Lemma pumps_halt_only_on_short_frame_witness :
  AssertFailed = AssertFailed ∧ false = false
  ∧ ¬ Forall turn_well_sized
        [Up (mk_uplink_input (ReadFrame arp_header) 14);
         Down (mk_downlink_input (RecvDatagram runt stranger) 5)].
Proof.
  apply (pumps_halt_only_on_short_frame false
           (mk_bridge vport0 stack_garbage stack_garbage)
           [Up (mk_uplink_input (ReadFrame arp_header) 14);
            Down (mk_downlink_input (RecvDatagram runt stranger) 5)]
           AssertFailed).
  reflexivity.
Defined.

(** Laws of the process monad. *)
Lemma proc_left_id {A B : Type} (a : A) (f : A → Proc B) : mret a ≫= f = f a.
Proof. unfold mbind, proc_mbind, proc_bind. simpl. by destruct (f a). Qed.

Lemma proc_bind_ext {A B : Type} (m : Proc A) (f g : A → Proc B) :
  (∀ a, f a = g a) → m ≫= f = m ≫= g.
Proof.
  intros Hfg. unfold mbind, proc_mbind, proc_bind.
  destruct (res m); [by rewrite Hfg | done].
Qed.

Lemma proc_assoc {A B C : Type} (m : Proc A) (f : A → Proc B) (g : B → Proc C) :
  (m ≫= f) ≫= g = m ≫= (λ a, f a ≫= g).
Proof.
  unfold mbind, proc_mbind, proc_bind.
  destruct (res m) as [a | h]; simpl; [| done].
  destruct (res (f a)); simpl; [by rewrite (assoc_L (++)) | done].
Qed.

Lemma run_bridge_ups (NDEBUG : bool) (b : bridge) (ups : list uplink_input) :
  run_bridge NDEBUG b (Up <$> ups)
  = (buf ← forward_ether_data_to_vswitch NDEBUG (shared b) (up_buf b) ups;
     mret (mk_bridge (shared b) buf (down_buf b))).
Proof.
  revert b. induction ups as [| i ups IH]; intros b.
  - cbn. by destruct b.
  - cbn [fmap list_fmap run_bridge forward_ether_data_to_vswitch bridge_turn].
    rewrite !proc_assoc. apply proc_bind_ext. intros buf.
    rewrite proc_left_id. apply IH.
Qed.


(** ** [main] *)

Lemma main_sys_events_app (tr1 tr2 : list main_event) :
  main_sys_events (tr1 ++ tr2) = main_sys_events tr1 ++ main_sys_events tr2.
Proof. apply omap_app. Qed.

Lemma main_sys_events_lift (tr : list event) : main_sys_events (MainSys <$> tr) = tr.
Proof. induction tr as [| e tr IH]; [done |]. cbn. f_equal. apply IH. Qed.

Section SetupFacts.

Variable env : setup_env.
Variable server_ip_str : string.
Variable server_port : Z.

Lemma vport_init_trace_setup :
  Forall is_setup_event (trace (vport_init env server_ip_str server_port)).
Proof.
  unfold vport_init, tap_alloc, sys_open, sys_ioctl_tunsetiff, sys_socket, sys_close,
    inet_pton, ERROR_PRINT_THEN_EXIT, fprintf_stderr, printf, emit, emit_ret, exit.
  cbn. repeat (case_match; cbn); turn_cases.
Qed.

Lemma vport_init_done (vport : vport_t) :
  res (vport_init env server_ip_str server_port) = Done vport →
  tapfd vport = env_open env "/dev/net/tun" O_RDWR
  ∧ 0 ≤ tapfd vport
  ∧ vport_sockfd vport = env_socket env AF_INET SOCK_DGRAM 0
  ∧ 0 ≤ vport_sockfd vport
  ∧ ∃ a, env_parse_ipv4 env server_ip_str = Some a
         ∧ vswitch_addr vport = mk_sockaddr_in AF_INET (htons server_port) a.
Proof.
  unfold vport_init, tap_alloc, sys_open, sys_ioctl_tunsetiff, sys_socket, sys_close,
    inet_pton, ERROR_PRINT_THEN_EXIT, fprintf_stderr, printf, emit, emit_ret, exit.
  cbn.
  branch_on (env_open env "/dev/net/tun" O_RDWR <? 0); cbn.
  { rewrite (proj2 (Z.ltb_lt _ _) Hc). cbn. discriminate. }
  destruct (env_tunsetiff env _ _) as [err ifr]. cbn.
  branch_on (err <? 0); cbn.
  { rewrite (proj2 (Z.ltb_lt _ _) Hc0). cbn. discriminate. }
  rewrite (proj2 (Z.ltb_ge _ _) Hc). cbn.
  branch_on (env_socket env AF_INET SOCK_DGRAM 0 <? 0); cbn; [discriminate |].
  destruct (env_parse_ipv4 env server_ip_str) as [a |]; cbn; [| discriminate].
  intros [= <-]. cbn. eauto 10.
Qed.

Lemma vport_init_halt_kind (h : halt) :
  res (vport_init env server_ip_str server_port) = Halted h → h = Exited 1.
Proof.
  unfold vport_init, tap_alloc, sys_open, sys_ioctl_tunsetiff, sys_socket, sys_close,
    inet_pton, ERROR_PRINT_THEN_EXIT, fprintf_stderr, printf, emit, emit_ret, exit.
  cbn. repeat (case_match; cbn); intros; simplify_eq/=; done.
Qed.

End SetupFacts.

Lemma forward_as_bridge (NDEBUG : bool) (vport : vport_t) (buf down : list Z)
    (ups : list uplink_input) :
  let loop := forward_ether_data_to_vswitch NDEBUG vport buf ups in
  let run := run_bridge NDEBUG (mk_bridge vport buf down) (Up <$> ups) in
  trace loop = trace run
  ∧ (∀ buf', res loop = Done buf' → res run = Done (mk_bridge vport buf' down))
  ∧ (∀ h, res loop = Halted h → res run = Halted h).
Proof.
  intros loop run. subst run. rewrite run_bridge_ups. simpl. fold loop.
  clearbody loop. destruct loop as [tr [buf' | h]]; cbn.
  - rewrite app_nil_r. split; [done |]. split; [by intros ? [= <-] | discriminate].
  - split; [done |]. split; [discriminate | by intros ? [= <-]].
Qed.

Lemma run_bridge_halt_kind (NDEBUG : bool) (b : bridge) (sched : list turn) (h : halt) :
  res (run_bridge NDEBUG b sched) = Halted h → h = AssertFailed ∧ NDEBUG = false.
Proof.
  revert b. induction sched as [| t sched IH]; intros b; [discriminate |].
  cbn [run_bridge]. unfold mbind, proc_mbind, proc_bind.
  destruct (res (bridge_turn NDEBUG b t)) as [b1 | h1] eqn:Hturn; simpl.
  - apply IH.
  - intros [= <-]. by destruct (bridge_turn_halts NDEBUG b t h1 Hturn) as (? & ? & _).
Qed.

Section MainFacts.

Variable env : main_env.
Variable NDEBUG : bool.
Variable argv : list string.
Variable early : list uplink_input.
Variable sched : list turn.

Let server_ip_str : string := default EmptyString (argv !! 1%nat).
Let server_port : Z := menv_atoi env (default EmptyString (argv !! 2%nat)).
Let init : Proc vport_t := vport_init (menv_setup env) server_ip_str server_port.

(** What holds of the events of [vport_init], of the uplink's first passes
    and of the run of both threads holds of the events of [main]. *)
Lemma main_events_Forall (P : event → Prop) :
  Forall P (trace init) →
  (∀ vport, res init = Done vport →
     let up := forward_ether_data_to_vswitch NDEBUG vport (menv_up_stack env) early in
     Forall P (trace up)
     ∧ ∀ buf, res up = Done buf →
         Forall P (trace (run_bridge NDEBUG
                            (mk_bridge vport buf (menv_down_stack env)) sched))) →
  Forall P (main_sys_events (main env NDEBUG argv early sched).1).
Proof.
  intros Hinit Hrest. unfold main. fold server_ip_str server_port init.
  destruct (negb (length argv =? 3)%nat); [constructor |].
  destruct (res init) as [vport | h] eqn:Hres; simpl;
    [| by rewrite main_sys_events_lift].
  destruct (Hrest vport eq_refl) as [Hup Hrun].
  destruct (negb (menv_create_up env =? 0)); simpl.
  { rewrite !main_sys_events_app, main_sys_events_lift. simpl. by rewrite !app_nil_r. }
  destruct (res (forward_ether_data_to_vswitch _ _ _ _)) as [buf | h] eqn:Hupres; simpl.
  - specialize (Hrun buf eq_refl).
    destruct (negb (menv_create_down env =? 0)); simpl;
      rewrite !main_sys_events_app, !main_sys_events_lift; simpl;
      rewrite ?app_nil_r; repeat (apply Forall_app; split); done.
  - rewrite !main_sys_events_app, !main_sys_events_lift. simpl.
    rewrite ?app_nil_r. by apply Forall_app.
Qed.

Lemma main_thread_created (down : bool) :
  MainPthreadCreate down ∈ (main env NDEBUG argv early sched).1 →
  length argv = 3%nat ∧ returned init.
Proof.
  unfold main. fold server_ip_str server_port init.
  destruct (length argv =? 3)%nat eqn:Hargc; simpl.
  - apply Nat.eqb_eq in Hargc.
    destruct (res init) as [vport | h] eqn:Hres; simpl.
    + intros _. split; [done | by exists vport].
    + intros (e & ? & _)%list_elem_of_fmap. discriminate.
  - intros [? | []%elem_of_nil]%elem_of_cons. discriminate.
Qed.

End MainFacts.

(** X15.  [main] called with anything but two arguments prints the usage line and
    exits with status 1 without a single system call; and a thread is
    created only when there were two arguments and [vport_init] came back. *)
Theorem main_argument_check (env : main_env) (NDEBUG : bool) (argv : list string)
    (early : list uplink_input) (sched : list turn) :
  (length argv ≠ 3%nat →
   main env NDEBUG argv early sched = ([MainUsage], Halted (Exited 1)))
  ∧ (∀ down, MainPthreadCreate down ∈ (main env NDEBUG argv early sched).1 →
       length argv = 3%nat
       ∧ returned (vport_init (menv_setup env) (default EmptyString (argv !! 1%nat))
                     (menv_atoi env (default EmptyString (argv !! 2%nat))))).
Proof.
  split.
  - intros Hargc. unfold main.
    by rewrite (proj2 (Nat.eqb_neq _ _) Hargc).
  - intros down. apply main_thread_created.
Qed.

Lemma main_argument_check_witness :
  main main_env0 false ["vport"%string; "127.0.0.1"%string] [] []
  = ([MainUsage], Halted (Exited 1)).
Proof.
  apply (main_argument_check main_env0 false ["vport"%string; "127.0.0.1"%string] [] []).
  simpl. lia.
Defined.

Lemma setup_event_uses_descriptors (tap sock : Z) (e : event) :
  is_setup_event e → uses_descriptors tap sock e.
Proof. by destruct e. Qed.

(** X16.  In the whole program, every [read] and [write] is on the descriptor that
    [open("/dev/net/tun")] returned and every [sendto] and [recvfrom] on the
    descriptor that [socket] returned; and when any of these calls is made,
    neither descriptor is negative. *)
Theorem main_io_on_setup_descriptors (env : main_env) (NDEBUG : bool) (argv : list string)
    (early : list uplink_input) (sched : list turn) :
  let tap := env_open (menv_setup env) "/dev/net/tun" O_RDWR in
  let sock := env_socket (menv_setup env) AF_INET SOCK_DGRAM 0 in
  Forall (uses_descriptors tap sock) (main_sys_events (main env NDEBUG argv early sched).1)
  ∧ ∀ e, e ∈ main_sys_events (main env NDEBUG argv early sched).1 →
         ¬ is_setup_event e → 0 ≤ tap ∧ 0 ≤ sock.
Proof.
  intros tap sock. split.
  - apply main_events_Forall.
    + eapply Forall_impl; [apply vport_init_trace_setup |].
      apply setup_event_uses_descriptors.
    + intros vport (Htap & _ & Hsock & _)%vport_init_done up. subst up.
      destruct (forward_as_bridge NDEBUG vport (menv_up_stack env) (menv_down_stack env)
                  early) as (-> & Hdone & _).
      destruct (run_bridge_invariant NDEBUG (λ _, True)
                  (λ b, tapfd (shared b) = tap ∧ vport_sockfd (shared b) = sock)
                  (uses_descriptors tap sock)
                  (λ b t _, turn_keeps_descriptors NDEBUG tap sock b t)
                  (Up <$> early)
                  (mk_bridge vport (menv_up_stack env) (menv_down_stack env)))
        as [Htr Hkeep]; [by apply Forall_true | done |].
      split; [done |]. intros buf Hbuf.
      apply (run_bridge_invariant NDEBUG (λ _, True)
               (λ b, tapfd (shared b) = tap ∧ vport_sockfd (shared b) = sock)
               (uses_descriptors tap sock)
               (λ b t _, turn_keeps_descriptors NDEBUG tap sock b t));
        [by apply Forall_true | done].
  - apply (Forall_forall (λ e, ¬ is_setup_event e → 0 ≤ tap ∧ 0 ≤ sock)).
    apply (main_events_Forall env NDEBUG argv early sched
             (λ e, ¬ is_setup_event e → 0 ≤ tap ∧ 0 ≤ sock)).
    + eapply Forall_impl; [apply vport_init_trace_setup |]. by intros e He Hne.
    + intros vport (Htap & Htap0 & Hsock & Hsock0 & _)%vport_init_done up.
      fold tap in Htap. fold sock in Hsock. rewrite Htap in Htap0. rewrite Hsock in Hsock0.
      split; [| intros buf _]; apply Forall_forall; by intros e _ _.
Qed.

Lemma main_io_on_setup_descriptors_witness :
  0 ≤ env_open (menv_setup main_env0) "/dev/net/tun" O_RDWR
  ∧ 0 ≤ env_socket (menv_setup main_env0) AF_INET SOCK_DGRAM 0.
Proof.
  apply (proj2 (main_io_on_setup_descriptors main_env0 false
                  ["vport"%string; "127.0.0.1"%string; "8080"%string]
                  [mk_uplink_input (ReadFrame arp_header) 14] [])
               (EvRead 3 ETHER_MAX_LEN)).
  - apply (list_elem_of_lookup_2 _ 4). reflexivity.
  - simpl. tauto.
Defined.

Lemma sender_is_ups (addr : sockaddr_in) (ups : list uplink_input) :
  Forall (sender_is addr) (Up <$> ups).
Proof. apply Forall_fmap, Forall_true. by intros i. Qed.

(** X17.  As long as every datagram that arrives comes from the switch named on
    the command line, every datagram the program sends goes to that switch:
    family [AF_INET], port [htons(atoi(argv[2]))], address [argv[1]]. *)
Theorem main_sends_to_configured_switch (env : main_env) (NDEBUG : bool)
    (argv : list string) (early : list uplink_input) (sched : list turn) (a : Z) :
  env_parse_ipv4 (menv_setup env) (default EmptyString (argv !! 1%nat)) = Some a →
  let addr := mk_sockaddr_in AF_INET
                (htons (menv_atoi env (default EmptyString (argv !! 2%nat)))) a in
  Forall (sender_is addr) sched →
  Forall (sends_only_to addr) (main_sys_events (main env NDEBUG argv early sched).1).
Proof.
  intros Hparse addr Hsched.
  apply main_events_Forall.
  - eapply Forall_impl; [apply vport_init_trace_setup |]. by intros [].
  - intros vport (_ & _ & _ & _ & a' & Ha' & Haddr)%vport_init_done up. subst up.
    rewrite Hparse in Ha'. injection Ha' as <-. fold addr in Haddr.
    destruct (forward_as_bridge NDEBUG vport (menv_up_stack env) (menv_down_stack env)
                early) as (-> & Hdone & _).
    destruct (run_bridge_invariant NDEBUG (sender_is addr)
                (λ b, vswitch_addr (shared b) = addr) (sends_only_to addr)
                (turn_keeps_destination NDEBUG addr)
                (Up <$> early)
                (mk_bridge vport (menv_up_stack env) (menv_down_stack env))
                (sender_is_ups addr early) Haddr)
      as [Htr Hkeep].
    split; [done |]. intros buf Hbuf.
    apply (run_bridge_invariant NDEBUG (sender_is addr)
             (λ b, vswitch_addr (shared b) = addr) (sends_only_to addr)
             (turn_keeps_destination NDEBUG addr)); [done |].
    apply (Hkeep _ (Hdone buf Hbuf)).
Qed.

Lemma main_sends_to_configured_switch_witness :
  Forall (sends_only_to (vswitch_addr vport0))
    (main_sys_events
       (main main_env0 false ["vport"%string; "127.0.0.1"%string; "8080"%string]
          [mk_uplink_input (ReadFrame arp_header) 14]
          [Down (mk_downlink_input (RecvDatagram arp_header (vswitch_addr vport0)) 14);
           Up (mk_uplink_input (ReadFrame arp_header) 14)]).1).
Proof.
  apply (main_sends_to_configured_switch main_env0 false
           ["vport"%string; "127.0.0.1"%string; "8080"%string]
           [mk_uplink_input (ReadFrame arp_header) 14]
           [Down (mk_downlink_input (RecvDatagram arp_header (vswitch_addr vport0)) 14);
            Up (mk_uplink_input (ReadFrame arp_header) 14)]
           loopback).
  - reflexivity.
  - repeat (apply Forall_cons_2; [simpl; done |]). apply Forall_nil_2.
Defined.

(** X18.  From its start to the point where it waits in [pthread_join],
    whatever the threads do meanwhile, the program halts in two ways only:
    by [exit(1)] (usage, a failure of [vport_init], a failure of
    [pthread_create]) or, in a build without [NDEBUG], by the size assertion
    of a pump. *)
Theorem main_halts_by_exit_1_or_assertion (env : main_env) (NDEBUG : bool)
    (argv : list string) (early : list uplink_input) (sched : list turn) (h : halt) :
  (main env NDEBUG argv early sched).2 = Halted h →
  h = Exited 1 ∨ (h = AssertFailed ∧ NDEBUG = false).
Proof.
  unfold main.
  destruct (negb (length argv =? 3)%nat); simpl; [intros [= <-]; by left |].
  destruct (res (vport_init _ _ _)) as [vport | h0] eqn:Hinit; simpl.
  2: { intros [= <-]. left. by apply vport_init_halt_kind in Hinit. }
  destruct (negb (menv_create_up env =? 0)); simpl; [intros [= <-]; by left |].
  destruct (forward_as_bridge NDEBUG vport (menv_up_stack env) (menv_down_stack env)
              early) as (_ & _ & Hhalt).
  destruct (res (forward_ether_data_to_vswitch _ _ _ _)) as [buf | h1]; simpl.
  - destruct (negb (menv_create_down env =? 0)); simpl; [intros [= <-]; by left |].
    intros Hrun. right. by apply run_bridge_halt_kind in Hrun.
  - intros [= <-]. right. by apply (run_bridge_halt_kind _ _ _ _ (Hhalt h1 eq_refl)).
Qed.

Lemma main_halts_by_exit_1_or_assertion_witness :
  AssertFailed = Exited 1 ∨ (AssertFailed = AssertFailed ∧ false = false).
Proof.
  apply (main_halts_by_exit_1_or_assertion main_env0 false
           ["vport"%string; "127.0.0.1"%string; "8080"%string]
           [mk_uplink_input (ReadFrame runt) 5] [] AssertFailed).
  reflexivity.
Defined.
